(** * Image fetcher and comparer ([main.py]): a shallow embedding

    The script pulls one static-map image per tracked coordinate, compares
    it with the stored image of that coordinate, stamps the registry
    entries and reports the outcome.  This file embeds the functions of
    [main.py] as Rocq functions over an explicit world (files, registry
    file, request log, clock, console) and proves properties of them.

    Conventions.
    - A Python [dict] with string keys is a [gmap string value].
    - [bytes] and [str] are both [string] (a sequence of 8-bit characters).
    - An exception is a value of [exn]; a statement that may raise is a
      computation in the monad [M S], which threads the state [S] and stops
      at the first exception, keeping the state reached so far.
    - The libraries the script calls (requests, cv2, numpy, base64, the
      system clock) are the fields of [env]: the embedding fixes what the
      script does with their answers, not the answers.
    - [images.json] is held as the document [json.load] reads from it and
      [json.dump] writes to it, not as text; the API key is held as the
      value [os.getenv] gives once [load_dotenv()] has run; the table that
      [tabulate] formats is held as the rows given to it.
    - Opening a file for writing fails only when its directory is not
      there; the current directory and the two image directories, which
      are made when the module is loaded, are there.  Reading a file fails
      only when the file is not there.
    - Paths are texts: [dir / name] is [name] when [name] starts from the
      root, as [pathlib] has it; a name is otherwise taken as written. *)

From Stdlib Require Import ZArith Ascii List Bool Lia.
From stdpp Require Import base option list strings gmap pretty.

Local Open Scope Z_scope.

(** ** Python values *)

(** The values stored in a registry entry or a report row: the JSON
    scalars [json.load] produces and [pathlib.Path].  A float is carried by
    its [repr] text (for instance [59.33] by ["59.33"]), which is all the
    script ever uses of it. *)
Inductive value :=
| VNone
| VBool (b : bool)
| VInt (n : Z)
| VFloat (repr : string)
| VStr (s : string)
| VPath (p : string).

#[global] Instance value_eq_dec : EqDecision value.
Proof. solve_decision. Defined.

(** [str(v)], which is also what an f-string and [str.format] insert. *)
Definition py_str (v : value) : string :=
  match v with
  | VNone => "None"
  | VBool true => "True"
  | VBool false => "False"
  | VInt n => pretty n
  | VFloat r => r
  | VStr s => s
  | VPath p => p
  end.

Abbreviation dict := (gmap string value).

(** ** Strings *)

(** [s.replace(old, new)] for one-character [old] and [new]. *)
Fixpoint str_replace (old new : ascii) (s : string) : string :=
  match s with
  | EmptyString => EmptyString
  | String c s' =>
      String (if Ascii.eqb c old then new else c) (str_replace old new s')
  end.

(** Number of occurrences of a character ([s.count(c)]). *)
Fixpoint str_count (c : ascii) (s : string) : nat :=
  match s with
  | EmptyString => O
  | String d s' => ((if Ascii.eqb d c then 1 else 0) + str_count c s')%nat
  end.

(** [prefix in s] at position 0 ([s.startswith(prefix)]). *)
Fixpoint startswith (p s : string) : bool :=
  match p, s with
  | EmptyString, _ => true
  | String a p', String b s' => Ascii.eqb a b && startswith p' s'
  | String _ _, EmptyString => false
  end.

(** Number of (possibly overlapping) occurrences of [p] in [s]. *)
Fixpoint occurrences (p s : string) : nat :=
  match s with
  | EmptyString => if startswith p EmptyString then 1%nat else O
  | String _ s' => ((if startswith p s then 1 else 0) + occurrences p s')%nat
  end.

(** The double-quote character, as a one-character string. *)
Definition dq : string := String "034"%char EmptyString.

(** ** [format_filename] *)

Definition format_filename (lat long : value) : string :=
  str_replace "-" "n" (str_replace "." "_" (py_str lat +:+ "_" +:+ py_str long))
  +:+ ".jpg".

(** ** Pixel grids *)

(** A numpy array of three axes: its shape (rows, columns, channels) and
    its item at each index; only the items inside the shape are part of the
    array.  [cv2.imread] yields such an array of [uint8] items. *)
Record ndarray := {
  nd_shape : nat * nat * nat;
  nd_item : nat -> nat -> nat -> Z
}.

Definition nd_rows (a : ndarray) : nat := fst (fst (nd_shape a)).
Definition nd_cols (a : ndarray) : nat := snd (fst (nd_shape a)).
Definition nd_chans (a : ndarray) : nat := snd (nd_shape a).

(** [saturate_cast<uchar>]. *)
Definition saturate_u8 (z : Z) : Z := Z.max 0 (Z.min 255 z).

(** [np.zeros(shape)]. *)
Definition np_zeros (sh : nat * nat * nat) : ndarray :=
  {| nd_shape := sh; nd_item := fun _ _ _ => 0 |}.

(** [np.array_equal(a, b)]: same shape and same item at every index. *)
Definition np_array_equal (a b : ndarray) : bool :=
  bool_decide (nd_shape a = nd_shape b) &&
  forallb (fun i =>
    forallb (fun j =>
      forallb (fun k => nd_item a i j k =? nd_item b i j k)
              (seq 0 (nd_chans a)))
            (seq 0 (nd_cols a)))
          (seq 0 (nd_rows a)).

(** ** Exceptions *)

Inductive exn :=
| KeyError (key : string)
| RequestException                 (* [requests.get] could not get an answer *)
| HTTPError (status : Z)           (* [raise_for_status] *)
| CvError                          (* [cv2.error]: sizes do not match *)
| FileNotFoundError (path : string)
| TypeError.                       (* [open] of what is no path *)

(** ** The outside world *)

Inductive response :=
| NoAnswer
| Answer (status : Z) (content : string).

Inductive output :=
| Print (line : string)
| PrintTable (rows : list dict)    (* [print(tabulate(rows, ...))] *)
| OsSystem (command : string).

(** What the libraries answer. *)
Record env := {
  (** the current directory, against which relative paths resolve *)
  cwd : string;
  (** the decoder of [cv2.imread]: [None] when the bytes are no image *)
  imread_decode : string -> option ndarray;
  (** [cv2.absdiff] in its array-with-scalar form, which it may take when
      the shapes differ and an operand has a single row or column *)
  absdiff_scalar : ndarray -> ndarray -> exn + ndarray;
  (** the answer to the [n]-th request of the run, for its URL *)
  http_get : nat -> string -> response;
  (** [datetime.now().isoformat()] at the [n]-th reading of the clock *)
  clock : nat -> string;
  (** [base64.b64encode(...).decode('utf-8')] *)
  b64encode : string -> string;
  (** the directories that are there, by absolute path, besides the
      current directory and the two image directories *)
  is_dir : string -> bool;
  (** [open(n, 'rb').read()] on the file descriptor [n] *)
  read_fd : Z -> exn + string
}.

(** What the script can change. *)
Record world := {
  (** the files, by absolute path *)
  files : gmap string string;
  (** [images.json]: [None] when the file does not exist, else the document
      [json.load] reads from it, where [Some None] is the document [null] *)
  registry : option (option (list dict));
  (** [os.getenv("GOOGLE_MAPS_API_KEY")] once [load_dotenv()] has run *)
  api_key : option string;
  (** the URLs requested so far, oldest first *)
  sent : list string;
  (** number of readings of the clock so far *)
  ticks : nat;
  (** what was printed or run, oldest first *)
  console : list output
}.

Definition set_files (f : gmap string string -> gmap string string) (w : world) : world :=
  {| files := f (files w); registry := registry w; api_key := api_key w;
     sent := sent w; ticks := ticks w; console := console w |}.

Definition set_registry (r : option (option (list dict))) (w : world) : world :=
  {| files := files w; registry := r; api_key := api_key w;
     sent := sent w; ticks := ticks w; console := console w |}.

Definition set_sent (s : list string) (w : world) : world :=
  {| files := files w; registry := registry w; api_key := api_key w;
     sent := s; ticks := ticks w; console := console w |}.

Definition set_ticks (n : nat) (w : world) : world :=
  {| files := files w; registry := registry w; api_key := api_key w;
     sent := sent w; ticks := n; console := console w |}.

Definition set_console (c : list output) (w : world) : world :=
  {| files := files w; registry := registry w; api_key := api_key w;
     sent := sent w; ticks := ticks w; console := c |}.

(** ** The monad of statements *)

Definition M (S A : Type) : Type := S -> S * (exn + A).

Definition ret {S A} (a : A) : M S A := fun s => (s, inr a).

Definition raise {S A} (e : exn) : M S A := fun s => (s, inl e).

Definition bind {S A B} (m : M S A) (k : A -> M S B) : M S B :=
  fun s =>
    match m s with
    | (s', inl e) => (s', inl e)
    | (s', inr a) => k a s'
    end.

Notation "x <- m ;; k" := (bind m (fun x => k))
  (at level 100, m at next level, right associativity).
Notation "m ;;; k" := (bind m (fun _ => k))
  (at level 100, right associativity).

Definition gets {S A} (f : S -> A) : M S A := fun s => (s, inr (f s)).

Definition modify {S} (f : S -> S) : M S unit := fun s => (f s, inr tt).

Definition liftW {A} (m : M world A) : M (world * dict) A :=
  fun s =>
    match m (fst s) with
    | (w', r) => ((w', snd s), r)
    end.

(** [entry[key]]. *)
Definition getitem (key : string) : M (world * dict) value :=
  fun s =>
    match snd s !! key with
    | Some v => (s, inr v)
    | None => (s, inl (KeyError key))
    end.

(** [entry.get(key, default)]. *)
Definition dict_get (key : string) (default : value) : M (world * dict) value :=
  gets (fun s => match snd s !! key with Some v => v | None => default end).

(** [entry[key] = v]. *)
Definition setitem (key : string) (v : value) : M (world * dict) unit :=
  modify (fun s => (fst s, <[key := v]> (snd s))).

(** ** Files and paths *)

Definition NEW_IMAGES : string := "new_images".
Definition OLD_IMAGES : string := "old_images".

(** Whether the text ends with [/]. *)
Fixpoint ends_with_slash (s : string) : bool :=
  match s with
  | EmptyString => false
  | String c EmptyString => Ascii.eqb c "/"
  | String _ s' => ends_with_slash s'
  end.

(** [dir / name]: a name that starts from the root stands alone. *)
Definition path_join (dir name : string) : string :=
  if startswith "/" name then name
  else if ends_with_slash dir then dir +:+ name
  else dir +:+ "/" +:+ name.

(** The text before the last [/] of a path, when it has one. *)
Fixpoint before_last_slash (s : string) : option string :=
  match s with
  | EmptyString => None
  | String c s' =>
      match before_last_slash s' with
      | Some d => Some (String c d)
      | None => if Ascii.eqb c "/" then Some EmptyString else None
      end
  end.

(** [path.parent]: the directory a path lies in. *)
Definition dirname (p : string) : string :=
  match before_last_slash p with
  | Some EmptyString => "/"
  | Some d => d
  | None => "."
  end.

(** [path.absolute()]; every file access resolves its path this way. *)
Definition absolute (E : env) (p : string) : string :=
  if startswith "/" p then p else path_join (cwd E) p.

(** [path.exists()]. *)
Definition path_exists (E : env) (p : string) : M world bool :=
  gets (fun w => bool_decide (is_Some (files w !! absolute E p))).

(** [path.read_bytes()], [open(path, 'rb').read()]. *)
Definition read_bytes (E : env) (p : string) : M world string :=
  fun w =>
    match files w !! absolute E p with
    | Some content => (w, inr content)
    | None => (w, inl (FileNotFoundError p))
    end.

(** The directory in which a bare file name lies: the current one. *)
Definition here (E : env) : string := dirname (absolute E "_").

(** The directories that are there. *)
Definition dir_exists (E : env) (d : string) : bool :=
  String.eqb d (here E) || String.eqb d (absolute E NEW_IMAGES)
  || String.eqb d (absolute E OLD_IMAGES) || is_dir E d.

(** [open(p, 'w')] or [open(p, 'wb')] and [write(content)]: raises when
    the directory of [p] is not there. *)
Definition write_file (E : env) (p content : string) : M world unit :=
  if dir_exists E (dirname (absolute E p)) then
    modify (set_files (fun fs => <[absolute E p := content]> fs))
  else raise (FileNotFoundError p).

Definition save_image (E : env) (filepath content : string) : M world unit :=
  write_file E filepath content.

Definition print (line : string) : M world unit :=
  modify (fun w => set_console (console w ++ [Print line]) w).

(** [datetime.now().isoformat()]. *)
Definition now_isoformat (E : env) : M world string :=
  fun w => (set_ticks (S (ticks w)) w, inr (clock E (ticks w))).

(** ** [download_image] *)

(** [TEMPLATE_URL.format(lat=..., long=..., api_key=..., zoom=...)]. *)
Definition TEMPLATE_URL (zoom lat long key : value) : string :=
  "https://maps.googleapis.com/maps/api/staticmap?&zoom=" +:+ py_str zoom
  +:+ "&size=600x300&maptype=hybrid&markers=color:red%7Clabel:S%7C"
  +:+ py_str lat +:+ "," +:+ py_str long +:+ "&key=" +:+ py_str key.

(** [os.getenv("GOOGLE_MAPS_API_KEY")]. *)
Definition getenv_key : M world value :=
  gets (fun w => match api_key w with Some k => VStr k | None => VNone end).

(** [requests.get(url)]: one request, logged, answered by the world. *)
Definition requests_get (E : env) (url : string) : M world (Z * string) :=
  fun w =>
    let w' := set_sent (sent w ++ [url]) w in
    match http_get E (length (sent w)) url with
    | NoAnswer => (w', inl RequestException)
    | Answer status content => (w', inr (status, content))
    end.

(** [response.raise_for_status()]: client and server errors raise. *)
Definition raise_for_status (status : Z) : M world unit :=
  if (400 <=? status) && (status <? 600) then raise (HTTPError status)
  else ret tt.

Definition download_image (E : env) (lat long zoom : value) : M world string :=
  key <- getenv_key ;;
  let url := TEMPLATE_URL zoom lat long key in
  response <- requests_get E url ;;
  raise_for_status (fst response) ;;;
  let new_filepath := path_join NEW_IMAGES (format_filename lat long) in
  save_image E new_filepath (snd response) ;;;
  ret new_filepath.

(** ** [images_are_a_match] *)

(** [cv2.imread(str(path))]: [None] when the file is missing or is no
    image. *)
Definition imread (E : env) (p : string) : M world (option ndarray) :=
  gets (fun w => files w !! absolute E p ≫= imread_decode E).

(** An operand [cv2.absdiff] may read as a scalar. *)
Definition scalar_like (a : ndarray) : bool :=
  (nd_rows a =? 1)%nat || (nd_cols a =? 1)%nat.

(** [cv2.absdiff(a, b)] on [uint8] arrays: the saturated absolute
    difference item by item when the shapes agree; otherwise [cv2.error],
    unless an operand may be read as a scalar. *)
Definition absdiff (E : env) (a b : ndarray) : exn + ndarray :=
  if bool_decide (nd_shape a = nd_shape b) then
    inr {| nd_shape := nd_shape a;
           nd_item := fun i j k =>
             saturate_u8 (Z.abs (nd_item a i j k - nd_item b i j k)) |}
  else if scalar_like a || scalar_like b then absdiff_scalar E a b
  else inl CvError.

Definition images_are_a_match (E : env) (old_image new_image : string) : M world bool :=
  img1 <- imread E old_image ;;
  img2 <- imread E new_image ;;
  match img1, img2 with
  | Some img1, Some img2 =>
      match absdiff E img1 img2 with
      | inl e => raise e
      | inr difference =>
          ret (np_array_equal difference (np_zeros (nd_shape difference)))
      end
  | _, _ => ret false
  end.

(** ** [update_images] *)

(** A row of the report, with the keys in the order the script writes
    them. *)
Definition update_row (name : value) (lat long : value) (status : string)
    (old_image new_image : string) : dict :=
  <["Name" := name]> (
  <["Location" := VStr (py_str lat +:+ ", " +:+ py_str long)]> (
  <["Status" := VStr status]> (
  <["old_image" := VPath old_image]> (
  <["new_image" := VPath new_image]> ∅)))).

(** The body of the loop of [update_images], on the entry in the state;
    its result is the row appended to [updates]. *)
Definition process_entry (E : env) : M (world * dict) dict :=
  lat <- getitem "lat" ;;
  long <- getitem "long" ;;
  zoom <- dict_get "zoom" (VInt 17) ;;
  new_image <- liftW (download_image E lat long zoom) ;;
  let old_image := path_join OLD_IMAGES (format_filename lat long) in
  pulled <- liftW (now_isoformat E) ;;
  setitem "last_pulled" (VStr pulled) ;;;
  missing <- liftW (b <- path_exists E old_image ;; ret (negb b)) ;;
  differ <- (if missing : bool then ret true
             else liftW (b <- images_are_a_match E old_image new_image ;;
                         ret (negb b))) ;;
  if differ : bool then
    still_missing <- liftW (b <- path_exists E old_image ;; ret (negb b)) ;;
    let status := if still_missing : bool then "New" else "Changed" in
    content <- liftW (read_bytes E new_image) ;;
    liftW (save_image E old_image content) ;;;
    changed <- liftW (now_isoformat E) ;;
    setitem "last_changed" (VStr changed) ;;;
    name <- getitem "name" ;;
    ret (update_row name lat long status
           (absolute E old_image) (absolute E new_image))
  else
    name <- getitem "name" ;;
    ret (update_row name lat long "Unchanged"
           (absolute E old_image) (absolute E new_image)).

(** The loop of [update_images] over the entries still to visit.  The
    entries are changed in place: the list returned holds every entry as
    the loop left it, also when an exception stopped the loop. *)
Fixpoint update_loop (E : env) (metadata : list dict) (updates : list dict)
    (w : world) : world * list dict * (exn + list dict) :=
  match metadata with
  | [] => (w, [], inr updates)
  | entry :: rest =>
      match process_entry E (w, entry) with
      | ((w', entry'), inl e) => (w', entry' :: rest, inl e)
      | ((w', entry'), inr row) =>
          match update_loop E rest (updates ++ [row]) w' with
          | (w'', rest', r) => (w'', entry' :: rest', r)
          end
      end
  end.

(** [update_images(metadata)]: the world and the registry list after the
    call, and the exception raised or the list returned. *)
Definition update_images (E : env) (metadata : option (list dict)) (w : world)
    : world * option (list dict) * (exn + list dict) :=
  match metadata with
  | None => (w, None, inr [])
  | Some [] => (w, Some [], inr [])
  | Some entries =>
      match update_loop E entries [] w with
      | (w', entries', r) => (w', Some entries', r)
      end
  end.

(** ** The registry file *)

Definition JSON_TEMPLATE : list dict :=
  [ <["lat" := VStr "0"]> (<["long" := VStr "0"]> (<["zoom" := VInt 10]> (
      <["name" := VStr "Location 1"]> ∅)));
    <["lat" := VStr "0"]> (<["long" := VStr "0"]> (<["zoom" := VInt 10]> (
      <["name" := VStr "Location 2"]> ∅))) ].

(** [save_metadata(metadata)]: [json.dump] into [images.json]. *)
Definition save_metadata (metadata : option (list dict)) : M world unit :=
  modify (set_registry (Some metadata)).

(** [load_metadata()]: the document of [images.json]; with no such file,
    the template is written and [None] returned. *)
Definition load_metadata : M world (option (list dict)) :=
  fun w =>
    match registry w with
    | Some document => (w, inr document)
    | None =>
        (print "No images.json file found. Creating one with a template, enter your own data and re-run the script." ;;;
         save_metadata (Some JSON_TEMPLATE) ;;;
         ret None) w
    end.

(** ** [google_key_loaded] *)

Fixpoint str_forallb (P : ascii -> bool) (s : string) : bool :=
  match s with
  | EmptyString => true
  | String c s' => P c && str_forallb P s'
  end.

(** The class [[A-Za-z0-9_-]]. *)
Definition key_char (c : ascii) : bool :=
  let n := nat_of_ascii c in
  ((65 <=? n) && (n <=? 90) || (97 <=? n) && (n <=? 122) ||
   (48 <=? n) && (n <=? 57) || (n =? 95) || (n =? 45))%nat.

Definition key_body (s : string) : bool :=
  str_forallb key_char s &&
  ((35 <=? String.length s) && (String.length s <=? 40))%nat.

(** [s] without its last character when that is a line feed. *)
Fixpoint chomp (s : string) : option string :=
  match s with
  | EmptyString => None
  | String c EmptyString =>
      if Ascii.eqb c "010" then Some EmptyString else None
  | String c s' => String c <$> chomp s'
  end.

(** [re.match(r'^[A-Za-z0-9_-]{35,40}$', s)]: [$] also matches before a
    final line feed. *)
Definition key_format_ok (s : string) : bool :=
  key_body s || match chomp s with Some s' => key_body s' | None => false end.

Definition google_key_loaded (E : env) : M world bool :=
  key <- gets api_key ;;
  match key with
  | None | Some EmptyString =>
      write_file E ".env" "GOOGLE_MAPS_API_KEY=<your_key_here>" ;;;
      print "No GOOGLE_MAPS_API_KEY environment variable found. Open the .env file and enter your API key." ;;;
      ret false
  | Some k =>
      if key_format_ok k then ret true
      else
        print "Invalid GOOGLE_MAPS_API_KEY. Check the .env file and enter a valid API key." ;;;
        ret false
  end.

(** ** [generate_html] *)

(** [open(path, 'rb').read()] for a value: a text or a path names a
    file, an integer (or a boolean, which is one) a file descriptor, and
    anything else is a [TypeError]. *)
Definition open_rb_read (E : env) (path : value) : M world string :=
  match path with
  | VStr p | VPath p => read_bytes E p
  | VInt n => fun w => (w, read_fd E n)
  | VBool b => fun w => (w, read_fd E (if b then 1 else 0))
  | VNone | VFloat _ => raise TypeError
  end.

Definition image_to_base64 (E : env) (path : value) : M world string :=
  content <- open_rb_read E path ;;
  ret (b64encode E content).

(** The first loop of [generate_html]: each row gets the two encoded
    images under new keys. *)
Fixpoint embed_images (E : env) (metadata : list dict) : M world (list dict) :=
  match metadata with
  | [] => ret []
  | entry :: rest =>
      match entry !! "old_image" with
      | None => raise (KeyError "old_image")
      | Some old_image =>
          old64 <- image_to_base64 E old_image ;;
          let entry1 := <["old_image_base64" := VStr old64]> entry in
          match entry1 !! "new_image" with
          | None => raise (KeyError "new_image")
          | Some new_image =>
              new64 <- image_to_base64 E new_image ;;
              let entry2 := <["new_image_base64" := VStr new64]> entry1 in
              rest' <- embed_images E rest ;;
              ret (entry2 :: rest')
          end
      end
  end.

(** [{{ entry.key }}]: the text of the item, nothing when there is none. *)
Definition jinja_show (entry : dict) (key : string) : string :=
  match entry !! key with
  | Some v => py_str v
  | None => ""
  end.

(** The template up to [{% for entry in metadata %}]. *)
Definition html_head : string :=
"
    <!DOCTYPE html>
    <html>
    <head>
        <title>Image Comparison</title>
        <style>
            body {font-family: Arial, sans-serif; margin: 20px;}
            .container {display: flex; flex-wrap: wrap; justify-content: space-around;}
            .image-pair {margin-bottom: 20px;}
            img {max-width: 100%; max-height: 200px;}
            .caption {text-align: center;}
        </style>
    </head>
    <body>
        <h2>Image Comparison</h2>
        <div class=" +:+ dq +:+ "container" +:+ dq +:+ ">
            ".

(** The opening tag of an image pair. *)
Definition image_pair_tag : string :=
  "<div class=" +:+ dq +:+ "image-pair" +:+ dq +:+ ">".

(** The template between [{% if ... %}] and [{% endif %}]. *)
Definition html_image_pair (entry : dict) : string :=
"
                    " +:+ image_pair_tag +:+ "
                        <img src=" +:+ dq +:+ "data:image/jpeg;base64,"
  +:+ jinja_show entry "old_image_base64" +:+ dq +:+ " alt=" +:+ dq
  +:+ "Old Image" +:+ dq +:+ ">
                        <img src=" +:+ dq +:+ "data:image/jpeg;base64,"
  +:+ jinja_show entry "new_image_base64" +:+ dq +:+ " alt=" +:+ dq
  +:+ "New Image" +:+ dq +:+ ">
                        <p class=" +:+ dq +:+ "caption" +:+ dq +:+ ">"
  +:+ jinja_show entry "Name" +:+ " (" +:+ jinja_show entry "Location"
  +:+ ")</p>
                    </div>
                ".

(** One turn of the [for] block: [entry.status == 'Changed'] reads the
    item of key [status]. *)
Definition html_entry (entry : dict) : string :=
"
                "
  +:+ (if bool_decide (entry !! "status" = Some (VStr "Changed"))
       then html_image_pair entry else "")
  +:+ "
            ".

(** The template after [{% endfor %}]. *)
Definition html_tail : string :=
"
        </div>
    </body>
    </html>
    ".

(** [Template(html_template).render(metadata=metadata)]. *)
Definition render (metadata : list dict) : string :=
  html_head
  +:+ foldr (fun entry html => html_entry entry +:+ html) "" metadata
  +:+ html_tail.

Definition generate_html (E : env) (metadata : list dict) : M world unit :=
  metadata' <- embed_images E metadata ;;
  let html_content := render metadata' in
  write_file E "image_comparison.html" html_content ;;;
  modify (fun w => set_console (console w ++ [OsSystem "image_comparison.html"]) w).

(** ** [main] *)

Definition main (E : env) : M world unit :=
  loaded <- google_key_loaded E ;;
  if loaded : bool then
    metadata <- load_metadata ;;
    fun w =>
      match update_images E metadata w with
      | (w', _, inl e) => (w', inl e)
      | (w', metadata', inr updates) =>
          match updates with
          | _ :: _ =>
              (save_metadata metadata' ;;;
               modify (fun w => set_console (console w ++ [PrintTable updates]) w) ;;;
               generate_html E updates) w'
          | [] => print "No updates to report." w'
          end
      end
  else ret tt.

(** ** Sample worlds

    A small decoder, a clock and a few registry entries on which the
    functions above are run in the examples below. *)

(** A three-channel grid. *)
Definition grid (rows cols : nat) (item : nat -> nat -> nat -> Z) : ndarray :=
  {| nd_shape := (rows, cols, 3%nat); nd_item := item |}.

Definition grey_2x2 : ndarray := grid 2 2 (fun _ _ _ => 7).

(** [grey_2x2] with the red channel of pixel (1, 0) one step brighter. *)
Definition spot_2x2 : ndarray :=
  grid 2 2 (fun i j k =>
    if ((i =? 1) && (j =? 0) && (k =? 2))%nat then 8 else 7).

Definition grey_2x3 : ndarray := grid 2 3 (fun _ _ _ => 7).

(** A decoder that knows three images by their bytes. *)
Definition sample_decode (content : string) : option ndarray :=
  if String.eqb content "grey-2x2" then Some grey_2x2
  else if String.eqb content "spot-2x2" then Some spot_2x2
  else if String.eqb content "grey-2x3" then Some grey_2x3
  else None.

Definition sample_env (net : nat -> string -> response) : env :=
  {| cwd := "/home/user";
     imread_decode := sample_decode;
     absdiff_scalar := fun _ _ => inl CvError;
     http_get := net;
     clock := fun n => "T" +:+ pretty n;
     b64encode := fun content => "base64:" +:+ content;
     is_dir := fun _ => false;
     read_fd := fun _ => inl (FileNotFoundError "") |}.

(** Every request is answered 200 with the given body. *)
Definition serves (content : string) : env :=
  sample_env (fun _ _ => Answer 200 content).

(** The first request is answered with an image, every later one is
    refused. *)
Definition refuses_after_first : env :=
  sample_env (fun n _ =>
    match n with O => Answer 200 "grey-2x2" | S _ => Answer 403 "Forbidden" end).

(** Every request is answered with the given status and body. *)
Definition answers (status : Z) (content : string) : env :=
  sample_env (fun _ _ => Answer status content).


Definition sample_key : string := "AIzaSyA-0123456789_abcdefghijklmnopqrstu".

Definition stockholm : dict :=
  <["lat" := VStr "59.33"]> (<["long" := VStr "18.06"]> (
  <["zoom" := VInt 17]> (<["name" := VStr "Stockholm"]> ∅))).

Definition equator : dict :=
  <["lat" := VStr "0"]> (<["long" := VStr "0"]> (
  <["zoom" := VInt 0]> (<["name" := VStr "Equator"]> ∅))).

Definition oslo : dict :=
  <["lat" := VStr "59.91"]> (<["long" := VStr "10.75"]> (
  <["name" := VStr "Oslo"]> ∅)).

(** The world before a run over the given registry and files. *)
Definition fresh_world (fs : gmap string string) (entries : list dict) : world :=
  {| files := fs; registry := Some (Some entries); api_key := Some sample_key;
     sent := []; ticks := 0; console := [] |}.

(** The stored image of [stockholm], with the given bytes. *)
Definition stockholm_stored (content : string) : gmap string string :=
  <["/home/user/old_images/59_33_18_06.jpg" := content]> ∅.

(** The stored and the fetched image of [stockholm] side by side. *)
Definition stockholm_both (stored fetched : string) : gmap string string :=
  <["/home/user/new_images/59_33_18_06.jpg" := fetched]> (stockholm_stored stored).

(** The URL [process_entry] requests for an entry that has its
    coordinates. *)
Definition request_url (w : world) (entry : dict) : string :=
  TEMPLATE_URL
    (match entry !! "zoom" with Some zoom => zoom | None => VInt 17 end)
    (default VNone (entry !! "lat"))
    (default VNone (entry !! "long"))
    (match api_key w with Some k => VStr k | None => VNone end).


(** An entry with the three keys the loop reads with [entry[...]]. *)
Definition is_location (entry : dict) : Prop :=
  is_Some (entry !! "lat") /\ is_Some (entry !! "long") /\
  is_Some (entry !! "name").


(** A turn of the loop, at or after the [n]-th reading of the clock, that
    takes the entry [e] to [e'] and yields [row]. *)
Definition turn (E : env) (n : nat) (e e' row : dict) : Prop :=
  exists w w', (n <= ticks w)%nat /\ process_entry E (w, e) = ((w', e'), inr row).

(** A world with the given key and registry file, and nothing else. *)
Definition bare_world (key : option string)
    (document : option (option (list dict))) : world :=
  {| files := ∅; registry := document; api_key := key;
     sent := []; ticks := 0; console := [] |}.


(** An entry with a name and no latitude. *)
Definition unplaced : dict :=
  <["long" := VStr "18.06"]> (<["name" := VStr "Nowhere"]> ∅).

(** Where the stored image of an entry is kept, and where its fetched
    image is written. *)
Definition reference_path (E : env) (entry : dict) : string :=
  absolute E (path_join OLD_IMAGES
    (format_filename (default VNone (entry !! "lat"))
                     (default VNone (entry !! "long")))).

Definition candidate_path (E : env) (entry : dict) : string :=
  absolute E (path_join NEW_IMAGES
    (format_filename (default VNone (entry !! "lat"))
                     (default VNone (entry !! "long")))).

(** A row [generate_html] can embed: under [old_image] and [new_image]
    it names, by a text or a path, two files that are there. *)
Definition report_ready (E : env) (w : world) (row : dict) : Prop :=
  exists old_image new_image,
    (row !! "old_image" = Some (VStr old_image) \/
     row !! "old_image" = Some (VPath old_image)) /\
    (row !! "new_image" = Some (VStr new_image) \/
     row !! "new_image" = Some (VPath new_image)) /\
    is_Some (files w !! absolute E old_image) /\
    is_Some (files w !! absolute E new_image).

(** A text without [/]. *)
Definition slash_free (s : string) : Prop := str_count "/" s = O.

(** An entry whose coordinate texts hold no [/], so that its two image
    files lie in the two image directories. *)
Definition plain_coordinates (entry : dict) : Prop :=
  slash_free (py_str (default VNone (entry !! "lat"))) /\
  slash_free (py_str (default VNone (entry !! "long"))).

(** An entry whose two image files lie in directories that are there. *)
Definition can_store (E : env) (entry : dict) : Prop :=
  dir_exists E (dirname (candidate_path E entry)) = true /\
  dir_exists E (dirname (reference_path E entry)) = true.

(** The text a row leaves in the report when its test fails. *)
Definition html_blank : string :=
"
                " +:+ "" +:+ "
            ".

(** A coordinate text in which neither replacement of [format_filename]
    can be confused with a character already there. *)
Definition plain_text (s : string) : Prop :=
  str_count "_" s = O ∧ str_count "n" s = O.

(** * Properties *)

(** ** Strings and [format_filename] *)

Lemma str_length_append (s t : string) :
  String.length (s +:+ t) = (String.length s + String.length t)%nat.
Proof. induction s as [|c s IH]; simpl; [reflexivity | now rewrite IH]. Qed.

Lemma append_inv_tail (s t u : string) : s +:+ u = t +:+ u -> s = t.
Proof.
  revert t. induction s as [|c s IH]; intros [|d t] H; simpl in *.
  - reflexivity.
  - exfalso. apply (f_equal String.length) in H.
    rewrite ?str_length_append in H. cbn [String.length] in H.
    rewrite ?str_length_append in H. lia.
  - exfalso. apply (f_equal String.length) in H.
    rewrite ?str_length_append in H. cbn [String.length] in H.
    rewrite ?str_length_append in H. lia.
  - injection H as -> H. f_equal. now apply IH.
Qed.

Lemma plain_text_cons c s :
  plain_text (String c s) -> c <> "_"%char /\ c <> "n"%char /\ plain_text s.
Proof.
  unfold plain_text. cbn [str_count].
  destruct (Ascii.eqb_spec c "_"), (Ascii.eqb_spec c "n"); intros [H1 H2];
    try (exfalso; lia).
  auto.
Qed.

(** On characters other than [_] and [n] the two replacements lose
    nothing. *)
Lemma escape_char_inj (c d : ascii) :
  c <> "_"%char -> c <> "n"%char -> d <> "_"%char -> d <> "n"%char ->
  str_replace "-" "n" (str_replace "." "_" (String c "")) =
  str_replace "-" "n" (str_replace "." "_" (String d "")) -> c = d.
Proof.
  intros Hc1 Hc2 Hd1 Hd2. simpl.
  destruct (Ascii.eqb_spec c "."), (Ascii.eqb_spec d "."); subst; simpl;
    try reflexivity.
  - destruct (Ascii.eqb_spec d "-"); intros H; congruence.
  - destruct (Ascii.eqb_spec c "-"); intros H; congruence.
  - destruct (Ascii.eqb_spec c "-"), (Ascii.eqb_spec d "-");
      intros H; congruence.
Qed.

Lemma escape_cons (c : ascii) (s : string) :
  str_replace "-" "n" (str_replace "." "_" (String c s)) =
  str_replace "-" "n" (str_replace "." "_" (String c ""))
  +:+ str_replace "-" "n" (str_replace "." "_" s).
Proof. reflexivity. Qed.

Lemma escape_cons_inv (c d : ascii) (s t : string) :
  str_replace "-" "n" (str_replace "." "_" (String c s)) =
  str_replace "-" "n" (str_replace "." "_" (String d t)) ->
  str_replace "-" "n" (str_replace "." "_" (String c "")) =
  str_replace "-" "n" (str_replace "." "_" (String d "")) /\
  str_replace "-" "n" (str_replace "." "_" s) =
  str_replace "-" "n" (str_replace "." "_" t).
Proof. simpl. intros [= H1 H2]. now rewrite H1. Qed.

Lemma escape_inj (s t : string) :
  plain_text s -> plain_text t ->
  str_replace "-" "n" (str_replace "." "_" s) =
  str_replace "-" "n" (str_replace "." "_" t) -> s = t.
Proof.
  revert t. induction s as [|c s IH]; intros [|d t] Hs Ht H;
    try reflexivity; try discriminate H.
  apply plain_text_cons in Hs as (Hc1 & Hc2 & Hs).
  apply plain_text_cons in Ht as (Hd1 & Hd2 & Ht).
  apply escape_cons_inv in H as [Hcd H].
  f_equal; [now apply escape_char_inj | now apply IH].
Qed.

(** A character that the replacements turn into [_] is a dot, when it is
    not [_] itself. *)
Lemma escape_char_underscore (c : ascii) :
  c <> "_"%char ->
  str_replace "-" "n" (str_replace "." "_" (String c "")) = "_" -> c = "."%char.
Proof.
  intros Hc. simpl.
  destruct (Ascii.eqb_spec c "."); [easy|]. 
  destruct (Ascii.eqb_spec c "-"); intros H; congruence.
Qed.

(** The separator is found again when both latitudes have as many dots. *)
Lemma escape_split (lat1 long1 lat2 long2 : string) :
  plain_text lat1 -> plain_text long1 -> plain_text lat2 -> plain_text long2 ->
  str_count "." lat1 = str_count "." lat2 ->
  str_replace "-" "n" (str_replace "." "_" (lat1 +:+ "_" +:+ long1)) =
  str_replace "-" "n" (str_replace "." "_" (lat2 +:+ "_" +:+ long2)) ->
  lat1 = lat2 /\ long1 = long2.
Proof.
  revert lat2. induction lat1 as [|c lat1 IH]; intros [|d lat2] H1 G1 H2 G2 Hdots H.
  - split; [reflexivity|]. cbn [String.append] in H.
    apply escape_cons_inv in H as [_ H]. now apply escape_inj.
  - exfalso. apply plain_text_cons in H2 as (Hd1 & _ & _).
    cbn [String.append] in H. apply escape_cons_inv in H as [H _].
    symmetry in H. apply escape_char_underscore in H; [|assumption].
    subst d. simpl in Hdots. lia.
  - exfalso. apply plain_text_cons in H1 as (Hc1 & _ & _).
    cbn [String.append] in H. apply escape_cons_inv in H as [H _].
    apply escape_char_underscore in H; [|assumption].
    subst c. simpl in Hdots. lia.
  - apply plain_text_cons in H1 as (Hc1 & Hc2 & H1).
    apply plain_text_cons in H2 as (Hd1 & Hd2 & H2).
    cbn [String.append] in H. apply escape_cons_inv in H as [Hcd H].
    apply escape_char_inj in Hcd; try assumption. subst d.
    simpl in Hdots.
    destruct (IH lat2 H1 G1 H2 G2) as [-> ->]; [lia | assumption | easy].
Qed.

(** C8, as the code has it: [format_filename] maps the two sample pairs
    to the names stated, and it tells two coordinate pairs apart when their
    texts hold no [_] and no [n] and the two latitudes are written with as
    many dots (as are any two floats in plain decimal notation, with one dot
    each). *)
Theorem format_filename_injective :
  format_filename (VFloat "59.33") (VFloat "18.06") = "59_33_18_06.jpg" /\
  format_filename (VFloat "-1.0") (VFloat "2.0") = "n1_0_2_0.jpg" /\
  forall lat1 long1 lat2 long2 : value,
    plain_text (py_str lat1) -> plain_text (py_str long1) ->
    plain_text (py_str lat2) -> plain_text (py_str long2) ->
    str_count "." (py_str lat1) = str_count "." (py_str lat2) ->
    format_filename lat1 long1 = format_filename lat2 long2 ->
    py_str lat1 = py_str lat2 /\ py_str long1 = py_str long2.
Proof.
  split; [reflexivity|]. split; [reflexivity|].
  intros lat1 long1 lat2 long2 H1 G1 H2 G2 Hdots.
  unfold format_filename. intros H. apply append_inv_tail in H.
  now apply escape_split.
Qed.

Lemma format_filename_injective_witness :
  format_filename (VFloat "59.33") (VFloat "18.06") =
  format_filename (VStr "59.33") (VStr "18.06") /\
  py_str (VFloat "59.33") = py_str (VStr "59.33") /\
  py_str (VFloat "18.06") = py_str (VStr "18.06").
Proof.
  split; [reflexivity|].
  apply (proj2 (proj2 format_filename_injective)
           (VFloat "59.33") (VFloat "18.06") (VStr "59.33") (VStr "18.06"));
    try (split; reflexivity); reflexivity.
Defined.

(** C8 as stated fails: two distinct coordinate pairs, written as the
    registry template writes coordinates, share a file name. *)
Lemma format_filename_collision :
  (VStr "1.5", VStr "2") <> (VStr "1", VStr "5.2") /\
  format_filename (VStr "1.5") (VStr "2") = format_filename (VStr "1") (VStr "5.2").
Proof. split; [discriminate | reflexivity]. Qed.

(** ** The comparator *)

Lemma forallb_false_ex {A} (f : A -> bool) (l : list A) :
  forallb f l = false -> exists x, In x l /\ f x = false.
Proof.
  induction l as [|a l IH]; simpl; [discriminate|].
  destruct (f a) eqn:Ha; simpl.
  - intros H. destruct (IH H) as (x & Hx & Hfx). eauto.
  - intros _. eauto.
Qed.

(** An array equals the zero array of its shape when all its items
    inside the shape are zero. *)
Lemma array_equal_zeros_true (d : ndarray) :
  np_array_equal d (np_zeros (nd_shape d)) = true <->
  forall i j k, (i < nd_rows d)%nat -> (j < nd_cols d)%nat ->
                (k < nd_chans d)%nat -> nd_item d i j k = 0.
Proof.
  unfold np_array_equal. cbn [np_zeros nd_shape nd_item].
  rewrite bool_decide_eq_true_2 by reflexivity. cbn [andb].
  rewrite forallb_forall. split.
  - intros H i j k Hi Hj Hk.
    specialize (H i). rewrite in_seq in H. specialize (H ltac:(lia)).
    rewrite forallb_forall in H. specialize (H j).
    rewrite in_seq in H. specialize (H ltac:(lia)).
    rewrite forallb_forall in H. specialize (H k).
    rewrite in_seq in H. specialize (H ltac:(lia)).
    now apply Z.eqb_eq.
  - intros H i Hi. apply in_seq in Hi.
    apply forallb_forall. intros j Hj. apply in_seq in Hj.
    apply forallb_forall. intros k Hk. apply in_seq in Hk.
    apply Z.eqb_eq. apply H; lia.
Qed.

Lemma array_equal_zeros_false (d : ndarray) :
  np_array_equal d (np_zeros (nd_shape d)) = false <->
  exists i j k, (i < nd_rows d)%nat /\ (j < nd_cols d)%nat /\
                (k < nd_chans d)%nat /\ nd_item d i j k <> 0.
Proof.
  split.
  - unfold np_array_equal. cbn [np_zeros nd_shape nd_item].
    rewrite bool_decide_eq_true_2 by reflexivity. cbn [andb].
    intros H. apply forallb_false_ex in H as (i & Hi & H).
    apply forallb_false_ex in H as (j & Hj & H).
    apply forallb_false_ex in H as (k & Hk & H).
    apply in_seq in Hi, Hj, Hk. apply Z.eqb_neq in H.
    exists i, j, k. repeat split; (lia || assumption).
  - intros (i & j & k & Hi & Hj & Hk & H).
    destruct (np_array_equal d (np_zeros (nd_shape d))) eqn:Heq; [|reflexivity].
    exfalso. apply H. now apply array_equal_zeros_true.
Qed.

(** The comparator reads the files and leaves the world as it is. *)
Lemma images_are_a_match_world E old new w :
  fst (images_are_a_match E old new w) = w.
Proof.
  unfold images_are_a_match, bind, imread, gets, ret, raise. simpl.
  destruct (files w !! absolute E old ≫= imread_decode E) as [img1|];
    [|reflexivity].
  destruct (files w !! absolute E new ≫= imread_decode E) as [img2|];
    [|reflexivity].
  destruct (absdiff E img1 img2); reflexivity.
Qed.

(** The comparator on two images that decode. *)
Lemma images_are_a_match_decoded E old new w img1 img2 :
  snd (imread E old w) = inr (Some img1) ->
  snd (imread E new w) = inr (Some img2) ->
  images_are_a_match E old new w =
  match absdiff E img1 img2 with
  | inl e => (w, inl e)
  | inr difference =>
      (w, inr (np_array_equal difference (np_zeros (nd_shape difference))))
  end.
Proof.
  unfold images_are_a_match, bind, imread, gets, ret, raise. simpl.
  intros [= ->] [= ->]. destruct (absdiff E img1 img2); reflexivity.
Qed.

Lemma absdiff_same_shape E (a b : ndarray) :
  nd_shape a = nd_shape b ->
  absdiff E a b =
  inr {| nd_shape := nd_shape a;
         nd_item := fun i j k =>
           saturate_u8 (Z.abs (nd_item a i j k - nd_item b i j k)) |}.
Proof. intros H. unfold absdiff. now rewrite bool_decide_eq_true_2. Qed.

(** C2: on two images that decode into grids of one shape, the comparator
    answers, and its answer is [True] exactly when the absolute difference
    is zero at every pixel and channel, [False] exactly when some item
    differs; an image that decodes matches itself. *)
Theorem images_are_a_match_iff E w old new img1 img2 :
  snd (imread E old w) = inr (Some img1) ->
  snd (imread E new w) = inr (Some img2) ->
  nd_shape img1 = nd_shape img2 ->
  exists verdict,
    images_are_a_match E old new w = (w, inr verdict) /\
    (verdict = true <->
     forall i j k, (i < nd_rows img1)%nat -> (j < nd_cols img1)%nat ->
                   (k < nd_chans img1)%nat ->
                   Z.abs (nd_item img1 i j k - nd_item img2 i j k) = 0) /\
    (verdict = false <->
     exists i j k, (i < nd_rows img1)%nat /\ (j < nd_cols img1)%nat /\
                   (k < nd_chans img1)%nat /\
                   nd_item img1 i j k <> nd_item img2 i j k) /\
    images_are_a_match E old old w = (w, inr true).
Proof.
  intros H1 H2 Hshape.
  rewrite (images_are_a_match_decoded E old new w img1 img2 H1 H2).
  rewrite (images_are_a_match_decoded E old old w img1 img1 H1 H1).
  rewrite (absdiff_same_shape E img1 img2 Hshape).
  rewrite (absdiff_same_shape E img1 img1 eq_refl).
  eexists. split; [reflexivity|]. split; [|split].
  - rewrite array_equal_zeros_true. cbn [nd_item nd_shape nd_rows nd_cols nd_chans].
    split; intros H i j k Hi Hj Hk; specialize (H i j k Hi Hj Hk).
    + unfold saturate_u8 in H. lia.
    + unfold saturate_u8. lia.
  - rewrite array_equal_zeros_false. cbn [nd_item nd_shape nd_rows nd_cols nd_chans].
    split; intros (i & j & k & Hi & Hj & Hk & H); exists i, j, k;
      repeat split; try assumption.
    + intros Heq. apply H. unfold saturate_u8. lia.
    + intros Heq. apply H. unfold saturate_u8 in Heq. lia.
  - f_equal. f_equal. apply array_equal_zeros_true.
    cbn [nd_item nd_shape]. intros. unfold saturate_u8. lia.
Qed.

Lemma images_are_a_match_iff_witness :
  exists verdict,
    images_are_a_match (serves "spot-2x2")
      "old_images/59_33_18_06.jpg" "new_images/59_33_18_06.jpg"
      (fresh_world (stockholm_both "grey-2x2" "spot-2x2") [stockholm])
    = (fresh_world (stockholm_both "grey-2x2" "spot-2x2") [stockholm],
       inr verdict) /\
    verdict = false.
Proof.
  destruct (images_are_a_match_iff (serves "spot-2x2")
              (fresh_world (stockholm_both "grey-2x2" "spot-2x2") [stockholm])
              "old_images/59_33_18_06.jpg" "new_images/59_33_18_06.jpg"
              grey_2x2 spot_2x2 eq_refl eq_refl eq_refl)
    as (verdict & Hrun & _ & Hfalse & _).
  exists verdict. split; [exact Hrun|].
  apply Hfalse. exists 1%nat, 0%nat, 2%nat. cbn. repeat split; lia.
Defined.

Lemma images_are_a_match_undecoded E old new w :
  snd (imread E old w) = inr None \/ snd (imread E new w) = inr None ->
  images_are_a_match E old new w = (w, inr false).
Proof.
  unfold images_are_a_match, bind, imread, gets, ret, raise. simpl.
  intros [[= H]|[= H]]; rewrite H;
    [|destruct (files w !! absolute E old ≫= imread_decode E)]; reflexivity.
Qed.

(** C4, as the code has it: the comparator answers [False] when an image
    does not decode, and answers when both decode into one shape; two
    decoded grids of different shapes, each of two rows and two columns at
    least, make [cv2.absdiff] raise, and the comparator with it. *)
Theorem images_are_a_match_total E w old new :
  (snd (imread E old w) = inr None \/ snd (imread E new w) = inr None ->
   images_are_a_match E old new w = (w, inr false)) /\
  (forall img1 img2,
     snd (imread E old w) = inr (Some img1) ->
     snd (imread E new w) = inr (Some img2) ->
     (nd_shape img1 = nd_shape img2 ->
      exists verdict, images_are_a_match E old new w = (w, inr verdict)) /\
     (nd_shape img1 <> nd_shape img2 ->
      scalar_like img1 = false -> scalar_like img2 = false ->
      images_are_a_match E old new w = (w, inl CvError))).
Proof.
  split.
  - apply images_are_a_match_undecoded.
  - intros img1 img2 H1 H2.
    rewrite (images_are_a_match_decoded E old new w img1 img2 H1 H2). split.
    + intros Hshape. rewrite (absdiff_same_shape E img1 img2 Hshape). eauto.
    + intros Hshape S1 S2. unfold absdiff.
      rewrite bool_decide_eq_false_2 by assumption. now rewrite S1, S2.
Qed.

Lemma images_are_a_match_total_witness :
  images_are_a_match (serves "grey-2x2")
    "old_images/59_33_18_06.jpg" "new_images/59_33_18_06.jpg"
    (fresh_world (stockholm_both "not an image" "grey-2x2") [stockholm])
  = (fresh_world (stockholm_both "not an image" "grey-2x2") [stockholm],
     inr false) /\
  images_are_a_match (serves "grey-2x3")
    "old_images/59_33_18_06.jpg" "new_images/59_33_18_06.jpg"
    (fresh_world (stockholm_both "grey-2x2" "grey-2x3") [stockholm])
  = (fresh_world (stockholm_both "grey-2x2" "grey-2x3") [stockholm],
     inl CvError).
Proof.
  split.
  - apply (images_are_a_match_total (serves "grey-2x2")). left. reflexivity.
  - apply (proj2 (images_are_a_match_total (serves "grey-2x3")
                    (fresh_world (stockholm_both "grey-2x2" "grey-2x3") [stockholm])
                    "old_images/59_33_18_06.jpg" "new_images/59_33_18_06.jpg")
                 grey_2x2 grey_2x3);
      try reflexivity.
    cbn. intros [= H].
Defined.

(** C4 as stated fails: a stored 2x2 image and a fetched 2x3 image both
    decode, and the comparison raises instead of answering [False]. *)
Lemma images_are_a_match_raises :
  snd (imread (serves "grey-2x3") "old_images/59_33_18_06.jpg"
         (fresh_world (stockholm_both "grey-2x2" "grey-2x3") [stockholm]))
  = inr (Some grey_2x2) /\
  snd (imread (serves "grey-2x3") "new_images/59_33_18_06.jpg"
         (fresh_world (stockholm_both "grey-2x2" "grey-2x3") [stockholm]))
  = inr (Some grey_2x3) /\
  snd (images_are_a_match (serves "grey-2x3")
         "old_images/59_33_18_06.jpg" "new_images/59_33_18_06.jpg"
         (fresh_world (stockholm_both "grey-2x2" "grey-2x3") [stockholm]))
  = inl CvError.
Proof. repeat split. Qed.

(** ** Replacements, character by character *)

Lemma str_replace_length old new (s : string) :
  String.length (str_replace old new s) = String.length s.
Proof. induction s as [|c s IH]; simpl; [reflexivity | now rewrite IH]. Qed.

Lemma str_replace_removes old new (s : string) :
  old <> new -> str_count old (str_replace old new s) = O.
Proof.
  intros Hne. induction s as [|c s IH]; cbn [str_replace str_count]; [reflexivity|].
  rewrite IH. destruct (Ascii.eqb_spec c old) as [->|Hc].
  - destruct (Ascii.eqb_spec new old); [congruence | reflexivity].
  - destruct (Ascii.eqb_spec c old); [congruence | reflexivity].
Qed.

Lemma str_replace_keeps_out old new c (s : string) :
  c <> new -> str_count c s = O -> str_count c (str_replace old new s) = O.
Proof.
  intros Hne. induction s as [|d s IH]; cbn [str_replace str_count]; [reflexivity|].
  destruct (Ascii.eqb_spec d c) as [->|Hd]; [intros H; exfalso; lia|].
  intros H. rewrite (IH H).
  destruct (Ascii.eqb_spec d old).
  - destruct (Ascii.eqb_spec new c); [congruence | reflexivity].
  - destruct (Ascii.eqb_spec d c); [congruence | reflexivity].
Qed.

(** ** Paths *)

Lemma str_append_assoc (s t u : string) : (s +:+ t) +:+ u = s +:+ (t +:+ u).
Proof.
  induction s as [|c s IH]; [reflexivity|].
  change (String c ((s +:+ t) +:+ u) = String c (s +:+ (t +:+ u))).
  now rewrite IH.
Qed.

Lemma str_count_append c (s t : string) :
  str_count c (s +:+ t) = (str_count c s + str_count c t)%nat.
Proof.
  induction s as [|d s IH]; [reflexivity|].
  change (String d s +:+ t) with (String d (s +:+ t)).
  cbn [str_count]. rewrite IH. lia.
Qed.

Lemma startswith_slash_free (s : string) :
  slash_free s -> startswith "/" s = false.
Proof.
  destruct s as [|c s]; [reflexivity|]. unfold slash_free. cbn [str_count startswith].
  rewrite (Ascii.eqb_sym "/" c). destruct (Ascii.eqb c "/"); [intros H; lia | reflexivity].
Qed.

Lemma before_last_slash_free (s : string) :
  slash_free s -> before_last_slash s = None.
Proof.
  unfold slash_free. induction s as [|c s IH]; [reflexivity|].
  cbn [str_count before_last_slash].
  destruct (Ascii.eqb c "/"); [intros H; lia|]. intros H. now rewrite IH.
Qed.

Lemma before_last_slash_append (t f : string) :
  slash_free f -> before_last_slash (t +:+ "/" +:+ f) = Some t.
Proof.
  intros Hf. induction t as [|c t IH].
  - change ("" +:+ "/" +:+ f) with (String "/" f). cbn [before_last_slash].
    now rewrite (before_last_slash_free f Hf).
  - change (String c t +:+ "/" +:+ f) with (String c (t +:+ "/" +:+ f)).
    cbn [before_last_slash]. now rewrite IH.
Qed.

Lemma ends_with_slash_inv (s : string) :
  ends_with_slash s = true -> exists t, s = t +:+ "/".
Proof.
  induction s as [|c s IH]; [discriminate|].
  destruct s as [|d s].
  - cbn [ends_with_slash]. intros H. apply Ascii.eqb_eq in H as ->. now exists "".
  - change (ends_with_slash (String c (String d s)))
      with (ends_with_slash (String d s)).
    intros H. destruct (IH H) as [t Ht]. exists (String c t). rewrite Ht. reflexivity.
Qed.

(** A name that does not start from the root is put after the directory
    and one [/]. *)
Lemma path_join_relative (dir : string) :
  exists t, forall name,
    startswith "/" name = false -> path_join dir name = t +:+ "/" +:+ name.
Proof.
  destruct (ends_with_slash dir) eqn:Hdir.
  - destruct (ends_with_slash_inv dir Hdir) as [t ->]. exists t.
    intros name Hname. unfold path_join. rewrite Hname, Hdir.
    now rewrite str_append_assoc.
  - exists dir. intros name Hname. unfold path_join. now rewrite Hname, Hdir.
Qed.

(** A bare file name lies in the current directory, which is there. *)
Lemma bare_name_dir E (f : string) :
  slash_free f -> dir_exists E (dirname (absolute E f)) = true.
Proof.
  intros Hf. unfold dir_exists.
  assert (dirname (absolute E f) = here E) as ->; [|now rewrite String.eqb_refl].
  unfold here, absolute. rewrite (startswith_slash_free f Hf). cbn [startswith].
  change (Ascii.eqb "/" "_" && true) with false. cbv iota.
  destruct (path_join_relative (cwd E)) as [t Ht].
  rewrite !Ht by (apply startswith_slash_free; assumption || reflexivity).
  unfold dirname. rewrite !before_last_slash_append by (assumption || reflexivity).
  reflexivity.
Qed.

Lemma format_filename_slash_free (lat long : value) :
  slash_free (py_str lat) -> slash_free (py_str long) ->
  slash_free (format_filename lat long).
Proof.
  unfold slash_free, format_filename. intros H1 H2.
  rewrite str_count_append. change (str_count "/" ".jpg") with O.
  rewrite Nat.add_0_r.
  apply str_replace_keeps_out; [discriminate|].
  apply str_replace_keeps_out; [discriminate|].
  rewrite !str_count_append, H1, H2. reflexivity.
Qed.

(** Files with names without [/] in the image directories: where they
    are, and that their directory is there. *)
Lemma image_path E :
  exists t, forall dir f,
    dir = NEW_IMAGES \/ dir = OLD_IMAGES -> slash_free f ->
    path_join dir f = dir +:+ "/" +:+ f /\
    absolute E (path_join dir f) = t +:+ "/" +:+ dir +:+ "/" +:+ f /\
    dir_exists E (dirname (absolute E (path_join dir f))) = true.
Proof.
  destruct (path_join_relative (cwd E)) as [t Ht]. exists t.
  intros dir f Hdir Hf.
  assert (Hjoin : path_join dir f = dir +:+ "/" +:+ f).
  { unfold path_join. rewrite (startswith_slash_free f Hf).
    destruct Hdir as [-> | ->]; reflexivity. }
  assert (Hrel : startswith "/" (dir +:+ "/" +:+ f) = false)
    by (destruct Hdir as [-> | ->]; reflexivity).
  assert (Habs : absolute E (path_join dir f) = t +:+ "/" +:+ dir +:+ "/" +:+ f).
  { rewrite Hjoin. unfold absolute. rewrite Hrel. now rewrite Ht by apply Hrel. }
  split; [exact Hjoin|]. split; [exact Habs|].
  rewrite Habs.
  assert (Hparent : dirname (t +:+ "/" +:+ dir +:+ "/" +:+ f) = absolute E dir).
  { replace (t +:+ "/" +:+ dir +:+ "/" +:+ f)
      with ((t +:+ "/" +:+ dir) +:+ "/" +:+ f)
      by (now rewrite !str_append_assoc).
    unfold dirname. rewrite before_last_slash_append by assumption.
    unfold absolute.
    assert (Hd : startswith "/" dir = false) by (destruct Hdir as [-> | ->]; reflexivity).
    rewrite Hd, (Ht dir Hd).
    destruct t; [|reflexivity]. destruct Hdir as [-> | ->]; reflexivity. }
  rewrite Hparent. unfold dir_exists.
  destruct Hdir as [-> | ->]; rewrite String.eqb_refl;
    rewrite ?orb_true_r; reflexivity.
Qed.

Lemma append_inv_head (s t u : string) : s +:+ t = s +:+ u -> t = u.
Proof. induction s as [|c s IH]; cbn; [auto | intros [= H]; auto]. Qed.

(** The stored image and the fetched image of a location whose
    coordinate texts hold no [/] are two files. *)
Lemma old_new_distinct E (name : string) :
  slash_free name ->
  absolute E (path_join OLD_IMAGES name) <> absolute E (path_join NEW_IMAGES name).
Proof.
  intros Hname. destruct (image_path E) as [t Ht].
  destruct (Ht OLD_IMAGES name) as (_ & -> & _); [now right | assumption |].
  destruct (Ht NEW_IMAGES name) as (_ & -> & _); [now left | assumption |].
  intros H. apply append_inv_head in H. discriminate H.
Qed.

(** An entry whose coordinate texts hold no [/]: its two image files are
    two, and their directories are there. *)
Lemma plain_coordinates_paths E (e : dict) :
  plain_coordinates e ->
  reference_path E e <> candidate_path E e /\ can_store E e.
Proof.
  intros [Hlat Hlong]. unfold can_store, reference_path, candidate_path.
  pose proof (format_filename_slash_free _ _ Hlat Hlong) as Hf.
  destruct (image_path E) as [t Ht].
  destruct (Ht NEW_IMAGES _ (or_introl eq_refl) Hf) as (_ & _ & Hnew).
  destruct (Ht OLD_IMAGES _ (or_intror eq_refl) Hf) as (_ & _ & Hold).
  split; [now apply old_new_distinct | split; assumption].
Qed.

(** ** One turn of the loop *)

(** [download_image], step by step. *)
Lemma download_image_eq E (lat long zoom : value) (w : world) :
  download_image E lat long zoom w =
  let url := TEMPLATE_URL zoom lat long
               (match api_key w with Some k => VStr k | None => VNone end) in
  let w1 := set_sent (sent w ++ [url]) w in
  let new_filepath := path_join NEW_IMAGES (format_filename lat long) in
  match http_get E (length (sent w)) url with
  | NoAnswer => (w1, inl RequestException)
  | Answer status content =>
      if (400 <=? status) && (status <? 600) then (w1, inl (HTTPError status))
      else if dir_exists E (dirname (absolute E new_filepath)) then
        (set_files (fun fs => <[absolute E new_filepath := content]> fs) w1,
         inr new_filepath)
      else (w1, inl (FileNotFoundError new_filepath))
  end.
Proof.
  unfold download_image, bind, getenv_key, gets, requests_get, raise_for_status,
    save_image, write_file, modify, ret, raise.
  cbn zeta.
  destruct (http_get E _ _) as [|status content]; [reflexivity|].
  cbn [fst snd]. destruct ((400 <=? status) && (status <? 600)); [reflexivity|].
  destruct (dir_exists E _); reflexivity.
Qed.

(** [process_entry], step by step: the world and the entry it leaves and
    the row or exception it yields, case by case. *)
Lemma process_entry_eq E (w : world) (e : dict) :
  process_entry E (w, e) =
  match e !! "lat" with
  | None => ((w, e), inl (KeyError "lat"))
  | Some lat =>
  match e !! "long" with
  | None => ((w, e), inl (KeyError "long"))
  | Some long =>
  match download_image E lat long
          (match e !! "zoom" with Some v => v | None => VInt 17 end) w with
  | (w1, inl err) => ((w1, e), inl err)
  | (w1, inr new_image) =>
      let old_image := path_join OLD_IMAGES (format_filename lat long) in
      let w2 := set_ticks (S (ticks w1)) w1 in
      let e1 := <["last_pulled" := VStr (clock E (ticks w1))]> e in
      let promote (status : string) :=
        match files w2 !! absolute E new_image with
        | None => ((w2, e1), inl (FileNotFoundError new_image))
        | Some content =>
            if dir_exists E (dirname (absolute E old_image)) then
              let w3 := set_ticks (S (ticks w2))
                          (set_files (fun fs => <[absolute E old_image := content]> fs) w2) in
              let e2 := <["last_changed" := VStr (clock E (ticks w2))]> e1 in
              match e !! "name" with
              | None => ((w3, e2), inl (KeyError "name"))
              | Some name =>
                  ((w3, e2),
                   inr (update_row name lat long status
                          (absolute E old_image) (absolute E new_image)))
              end
            else ((w2, e1), inl (FileNotFoundError old_image))
        end in
      if bool_decide (is_Some (files w2 !! absolute E old_image)) then
        match snd (images_are_a_match E old_image new_image w2) with
        | inl err => ((w2, e1), inl err)
        | inr false => promote "Changed"
        | inr true =>
            match e !! "name" with
            | None => ((w2, e1), inl (KeyError "name"))
            | Some name =>
                ((w2, e1),
                 inr (update_row name lat long "Unchanged"
                        (absolute E old_image) (absolute E new_image)))
            end
        end
      else promote "New"
  end end end.
Proof.
  unfold process_entry. unfold bind at 1. unfold getitem at 1. cbn [fst snd].
  destruct (e !! "lat") as [lat|]; [|reflexivity].
  unfold bind at 1. unfold getitem at 1. cbn [fst snd].
  destruct (e !! "long") as [long|]; [|reflexivity].
  unfold bind at 1. unfold dict_get at 1, gets at 1. cbn [fst snd].
  unfold bind at 1. unfold liftW at 1. cbn [fst snd].
  destruct (download_image E lat long _ w) as [w1 [err|new_image]]; [reflexivity|].
  cbn zeta.
  set (old_image := path_join OLD_IMAGES (format_filename lat long)).
  unfold bind, liftW, now_isoformat, setitem, modify, path_exists, gets, ret,
    read_bytes, save_image, write_file, getitem, raise.
  cbn [fst snd].
  set (w2 := set_ticks (S (ticks w1)) w1).
  set (e1 := <["last_pulled":=VStr (clock E (ticks w1))]> e).
  assert (Hname1 : e1 !! "name" = e !! "name")
    by (unfold e1; now rewrite lookup_insert_ne).
  assert (Hname2 : forall v, <["last_changed":=v]> e1 !! "name" = e !! "name")
    by (intros v; now rewrite lookup_insert_ne).
  destruct (bool_decide (is_Some (files w2 !! absolute E old_image))) eqn:Hex;
    cbn [negb fst snd].
  - pose proof (images_are_a_match_world E old_image new_image w2) as Hw.
    destruct (images_are_a_match E old_image new_image w2) as [w' [err|[|]]];
      cbn [fst snd negb] in *; subst w'.
    + reflexivity.
    + rewrite Hname1. destruct (e !! "name"); reflexivity.
    + rewrite Hex. cbn [negb].
      destruct (files w2 !! absolute E new_image); [|reflexivity].
      cbn [fst snd]. destruct (dir_exists E _); [|reflexivity].
      unfold modify. cbn [fst snd]. rewrite Hname2.
      destruct (e !! "name"); reflexivity.
  - rewrite Hex. cbn [negb].
    destruct (files w2 !! absolute E new_image); [|reflexivity].
    cbn [fst snd]. destruct (dir_exists E _); [|reflexivity].
    unfold modify. cbn [fst snd]. rewrite Hname2.
    destruct (e !! "name"); reflexivity.
Qed.

(** What one turn leaves alone in the entry. *)
Lemma process_entry_frame E (w : world) (e : dict) (k : string) :
  k <> "last_pulled" -> k <> "last_changed" ->
  snd (fst (process_entry E (w, e))) !! k = e !! k.
Proof.
  intros Hp Hc. rewrite process_entry_eq. cbv zeta.
  repeat case_match; cbn [fst snd]; rewrite ?lookup_insert_ne by done; done.
Qed.

(** What one turn leaves alone in the world. *)
Lemma process_entry_world E (w : world) (e : dict) :
  registry (fst (fst (process_entry E (w, e)))) = registry w /\
  api_key (fst (fst (process_entry E (w, e)))) = api_key w /\
  console (fst (fst (process_entry E (w, e)))) = console w /\
  (ticks w <= ticks (fst (fst (process_entry E (w, e)))))%nat.
Proof.
  rewrite process_entry_eq. cbv zeta.
  destruct (e !! "lat") as [lat|]; [|cbn; auto].
  destruct (e !! "long") as [long|]; [|cbn; auto].
  rewrite download_image_eq. cbv zeta.
  repeat case_match; simplify_eq; cbn; auto with lia.
Qed.

(** One turn sends one request, for the URL of the entry, whatever
    happens next. *)
Lemma process_entry_request E (w : world) (e : dict) (lat long : value) :
  e !! "lat" = Some lat -> e !! "long" = Some long ->
  sent (fst (fst (process_entry E (w, e)))) = sent w ++ [request_url w e].
Proof.
  intros Hlat Hlong. rewrite process_entry_eq. cbv zeta.
  unfold request_url. rewrite Hlat, Hlong. cbn [default from_option id].
  rewrite download_image_eq. cbv zeta.
  repeat case_match; simplify_eq; cbn; reflexivity.
Qed.

(** A turn whose fetch fails stops there: the request is logged and
    nothing else has changed. *)
Lemma process_entry_fetch_fails E (w : world) (e : dict) (lat long : value) :
  e !! "lat" = Some lat -> e !! "long" = Some long ->
  (http_get E (length (sent w)) (request_url w e) = NoAnswer \/
   exists status content,
     http_get E (length (sent w)) (request_url w e) = Answer status content /\
     400 <= status < 600) ->
  exists err,
    process_entry E (w, e) =
      ((set_sent (sent w ++ [request_url w e]) w, e), inl err) /\
    (err = RequestException \/ exists status, err = HTTPError status).
Proof.
  intros Hlat Hlong Hfail. rewrite process_entry_eq.
  unfold request_url in *. rewrite Hlat, Hlong in *.
  cbn [default from_option id] in *.
  rewrite download_image_eq. cbv zeta.
  destruct Hfail as [->|(status & content & -> & Hst)].
  - eauto.
  - replace ((400 <=? status) && (status <? 600)) with true by lia. eauto.
Qed.

(** The stamps and the status of a turn that yields a row. *)
Lemma process_entry_stamps E (w w' : world) (e e' row : dict) :
  process_entry E (w, e) = ((w', e'), inr row) ->
  e' !! "last_pulled" = Some (VStr (clock E (ticks w))) /\
  is_Some (e !! "lat") /\ is_Some (e !! "long") /\
  row !! "Name" = e !! "name" /\
  row !! "Location" =
    Some (VStr (py_str (default VNone (e !! "lat")) +:+ ", "
                +:+ py_str (default VNone (e !! "long")))) /\
  ((row !! "Status" = Some (VStr "Unchanged") /\
    e' !! "last_changed" = e !! "last_changed") \/
   ((row !! "Status" = Some (VStr "New") \/
     row !! "Status" = Some (VStr "Changed")) /\
    e' !! "last_changed" = Some (VStr (clock E (S (ticks w)))))).
Proof.
  rewrite process_entry_eq.
  destruct (e !! "lat") as [lat|]; [|intros [= ]].
  destruct (e !! "long") as [long|]; [|intros [= ]].
  rewrite download_image_eq. cbv zeta.
  intros H.
  repeat case_match; simplify_eq; cbn [ticks set_ticks set_files set_sent];
    (split; [by simplify_map_eq|]); (split; [by eauto|]); (split; [by eauto|]);
    (split; [by (unfold update_row; simplify_map_eq)|]);
    (split; [by (unfold update_row; simplify_map_eq)|]);
    unfold update_row; simplify_map_eq; auto.
Qed.



(** The loop over a list that starts with entries already visited. *)
Lemma update_loop_app E (pre post : list dict) :
  forall (updates : list dict) (w : world),
  update_loop E (pre ++ post) updates w =
  match update_loop E pre updates w with
  | (w1, pre', inl err) => (w1, pre' ++ post, inl err)
  | (w1, pre', inr rows) =>
      match update_loop E post rows w1 with
      | (w2, post', r) => (w2, pre' ++ post', r)
      end
  end.
Proof.
  induction pre as [|e pre IH]; intros updates w; cbn [update_loop app].
  - destruct (update_loop E post updates w) as [[w2 post'] r]. reflexivity.
  - destruct (process_entry E (w, e)) as [[w1 e1] [err|row]]; [reflexivity|].
    rewrite IH.
    destruct (update_loop E pre (updates ++ [row]) w1) as [[w2 pre'] [err|rows]];
      [reflexivity|].
    destruct (update_loop E post rows w2) as [[w3 post'] r]. reflexivity.
Qed.

(** The rows of a loop that ends without an exception come one from each
    turn, after the rows already there. *)
Lemma update_loop_rows E (md : list dict) :
  forall (updates : list dict) (w w' : world) (md' rows : list dict),
  update_loop E md updates w = (w', md', inr rows) ->
  exists rows', rows = updates ++ rows' /\
                Forall3 (turn E (ticks w)) md md' rows'.
Proof.
  induction md as [|e md IH]; intros updates w w' md' rows; cbn [update_loop].
  - intros [= <- <- <-]. exists []. split; [now rewrite app_nil_r | constructor].
  - destruct (process_entry E (w, e)) as [[w1 e1] [err|row]] eqn:Hturn;
      [intros [= ]|].
    destruct (update_loop E md (updates ++ [row]) w1) as [[w2 md2] r] eqn:Hloop.
    intros [= <- <- ->].
    destruct (IH _ _ _ _ _ Hloop) as (rows' & -> & Hall).
    exists (row :: rows'). split; [now rewrite <- app_assoc|].
    constructor.
    + exists w, w1. split; [lia | assumption].
    + pose proof (process_entry_world E w e) as (_ & _ & _ & Hticks).
      rewrite Hturn in Hticks. cbn [fst] in Hticks.
      eapply Forall3_impl; [exact Hall|].
      intros x y z (wa & wb & Hle & Hrun). exists wa, wb. split; [lia|assumption].
Qed.

(** The loop changes the entries in place: as many entries afterwards,
    each with its other keys as before, whether or not it raised. *)
Lemma update_loop_frame E (md : list dict) :
  forall (updates : list dict) (w : world),
  Forall2 (fun e e' =>
             forall k, k <> "last_pulled" -> k <> "last_changed" ->
                       e' !! k = e !! k)
          md (snd (fst (update_loop E md updates w))).
Proof.
  induction md as [|e md IH]; intros updates w; cbn [update_loop].
  - constructor.
  - pose proof (process_entry_frame E w e) as Hframe.
    destruct (process_entry E (w, e)) as [[w1 e1] [err|row]]; cbn [fst snd] in *.
    + constructor; [assumption|]. apply Forall2_same_length_lookup_2; [done|].
      intros i x y Hx Hy. simplify_eq. done.
    + specialize (IH (updates ++ [row]) w1).
      destruct (update_loop E md (updates ++ [row]) w1) as [[w2 md2] r].
      cbn [fst snd] in *. constructor; assumption.
Qed.

(** The loop leaves the registry file, the key and the console alone. *)
Lemma update_loop_world E (md : list dict) :
  forall (updates : list dict) (w : world),
  registry (fst (fst (update_loop E md updates w))) = registry w /\
  api_key (fst (fst (update_loop E md updates w))) = api_key w /\
  console (fst (fst (update_loop E md updates w))) = console w.
Proof.
  induction md as [|e md IH]; intros updates w; cbn [update_loop].
  - auto.
  - pose proof (process_entry_world E w e) as (Hr & Hk & Hc & _).
    destruct (process_entry E (w, e)) as [[w1 e1] [err|row]]; cbn [fst snd] in *.
    + auto.
    + specialize (IH (updates ++ [row]) w1).
      destruct (update_loop E md (updates ++ [row]) w1) as [[w2 md2] r].
      cbn [fst snd] in *. destruct IH as (-> & -> & ->). auto.
Qed.


(** ** The pass over the registry *)

Lemma update_images_some E (md : list dict) (w : world) :
  update_images E (Some md) w =
  match update_loop E md [] w with
  | (w', md', r) => (w', Some md', r)
  end.
Proof. destruct md; reflexivity. Qed.




(** C3, as the code has it: after a pass that returns, a location whose
    row says [Unchanged] has its [last_changed] as before, and a location
    whose row says [New] or [Changed] has [last_changed] set to a reading
    of the clock taken during the pass. *)
Theorem last_changed_follows_status E (md md' rows : list dict)
    (w w' : world) (i : nat) (e e' row : dict) :
  update_images E (Some md) w = (w', Some md', inr rows) ->
  md !! i = Some e -> md' !! i = Some e' -> rows !! i = Some row ->
  (row !! "Status" = Some (VStr "Unchanged") /\
   e' !! "last_changed" = e !! "last_changed") \/
  ((row !! "Status" = Some (VStr "New") \/
    row !! "Status" = Some (VStr "Changed")) /\
   exists n, (ticks w < n)%nat /\
             e' !! "last_changed" = Some (VStr (clock E n))).
Proof.
  rewrite update_images_some.
  destruct (update_loop E md [] w) as [[w2 md2] r] eqn:Hloop.
  intros [= -> -> ->] He He' Hrow.
  apply update_loop_rows in Hloop as (rows' & -> & Hall). cbn [app] in Hrow.
  destruct (Forall3_lookup_lmr _ _ _ _ _ _ _ _ Hall He He' Hrow)
    as (wa & wb & Hle & Hturn).
  apply process_entry_stamps in Hturn as (_ & _ & _ & _ & _ & [H|[H Hset]]).
  - left. exact H.
  - right. split; [exact H|]. exists (S (ticks wa)). split; [lia | exact Hset].
Qed.

Lemma last_changed_follows_status_witness :
  (update_row (VStr "Stockholm") (VStr "59.33") (VStr "18.06") "Unchanged"
     "/home/user/old_images/59_33_18_06.jpg"
     "/home/user/new_images/59_33_18_06.jpg" !! "Status"
   = Some (VStr "Unchanged") /\
   <["last_pulled" := VStr "T0"]> stockholm !! "last_changed"
   = stockholm !! "last_changed") \/
  ((update_row (VStr "Stockholm") (VStr "59.33") (VStr "18.06") "Unchanged"
     "/home/user/old_images/59_33_18_06.jpg"
     "/home/user/new_images/59_33_18_06.jpg" !! "Status"
    = Some (VStr "New") \/
    update_row (VStr "Stockholm") (VStr "59.33") (VStr "18.06") "Unchanged"
     "/home/user/old_images/59_33_18_06.jpg"
     "/home/user/new_images/59_33_18_06.jpg" !! "Status"
    = Some (VStr "Changed")) /\
   exists n, (0 < n)%nat /\
     <["last_pulled" := VStr "T0"]> stockholm !! "last_changed"
     = Some (VStr (clock (serves "grey-2x2") n))).
Proof.
  apply (last_changed_follows_status (serves "grey-2x2")
           [stockholm] [<["last_pulled" := VStr "T0"]> stockholm]
           [update_row (VStr "Stockholm") (VStr "59.33") (VStr "18.06")
              "Unchanged" "/home/user/old_images/59_33_18_06.jpg"
              "/home/user/new_images/59_33_18_06.jpg"]
           (fresh_world (stockholm_stored "grey-2x2") [stockholm])
           (set_ticks 1 (set_files (fun fs =>
              <["/home/user/new_images/59_33_18_06.jpg" := "grey-2x2"]> fs)
              (set_sent [request_url
                 (fresh_world (stockholm_stored "grey-2x2") [stockholm])
                 stockholm]
                 (fresh_world (stockholm_stored "grey-2x2") [stockholm]))))
           0%nat);
    [vm_compute; reflexivity | reflexivity | reflexivity | reflexivity].
Defined.

(** C3 as stated fails: a location with no stored image gets the status
    [New], and its [last_changed], absent before the pass, is set. *)
Lemma new_location_sets_last_changed :
  stockholm !! "last_changed" = None /\
  update_images (serves "grey-2x2") (Some [stockholm]) (fresh_world ∅ [stockholm])
  = (set_ticks 2 (set_files (fun _ => stockholm_both "grey-2x2" "grey-2x2")
       (set_sent [request_url (fresh_world ∅ [stockholm]) stockholm]
          (fresh_world ∅ [stockholm]))),
     Some [<["last_changed" := VStr "T1"]>
             (<["last_pulled" := VStr "T0"]> stockholm)],
     inr [update_row (VStr "Stockholm") (VStr "59.33") (VStr "18.06") "New"
            "/home/user/old_images/59_33_18_06.jpg"
            "/home/user/new_images/59_33_18_06.jpg"]).
Proof. split; [reflexivity|]. vm_compute. reflexivity. Qed.

(** C7, as the code has it: the zoom requested for a location is the
    value under its [zoom] key, whatever that value is, and 17 when the
    entry has no such key. *)
Theorem fetch_zoom E (w : world) (e : dict) (lat long : value) :
  e !! "lat" = Some lat -> e !! "long" = Some long ->
  (forall zoom, e !! "zoom" = Some zoom ->
     sent (fst (fst (process_entry E (w, e)))) =
     sent w ++ [TEMPLATE_URL zoom lat long
                  (match api_key w with Some k => VStr k | None => VNone end)]) /\
  (e !! "zoom" = None ->
     sent (fst (fst (process_entry E (w, e)))) =
     sent w ++ [TEMPLATE_URL (VInt 17) lat long
                  (match api_key w with Some k => VStr k | None => VNone end)]).
Proof.
  intros Hlat Hlong.
  rewrite (process_entry_request E w e lat long Hlat Hlong).
  unfold request_url. rewrite Hlat, Hlong. cbn [default from_option id].
  split; [intros zoom Hzoom | intros Hzoom]; now rewrite Hzoom.
Qed.

Lemma fetch_zoom_witness :
  sent (fst (fst (process_entry (serves "grey-2x2")
                    (fresh_world ∅ [stockholm; oslo], stockholm)))) =
  [TEMPLATE_URL (VInt 17) (VStr "59.33") (VStr "18.06") (VStr sample_key)] /\
  sent (fst (fst (process_entry (serves "grey-2x2")
                    (fresh_world ∅ [stockholm; oslo], oslo)))) =
  [TEMPLATE_URL (VInt 17) (VStr "59.91") (VStr "10.75") (VStr sample_key)].
Proof.
  split.
  - apply (proj1 (fetch_zoom (serves "grey-2x2")
                    (fresh_world ∅ [stockholm; oslo]) stockholm
                    (VStr "59.33") (VStr "18.06") eq_refl eq_refl)
                 (VInt 17) eq_refl).
  - apply (proj2 (fetch_zoom (serves "grey-2x2")
                    (fresh_world ∅ [stockholm; oslo]) oslo
                    (VStr "59.91") (VStr "10.75") eq_refl eq_refl)
                 eq_refl).
Defined.

(** C7 as stated fails: a location whose zoom is zero is fetched at zoom
    0, not at the default 17. *)
Lemma zero_zoom_is_requested :
  equator !! "zoom" = Some (VInt 0) /\
  sent (fst (fst (update_images (serves "grey-2x2") (Some [equator])
                    (fresh_world ∅ [equator])))) =
  ["https://maps.googleapis.com/maps/api/staticmap?&zoom=0&size=600x300&maptype=hybrid&markers=color:red%7Clabel:S%7C0,0&key=AIzaSyA-0123456789_abcdefghijklmnopqrstu"].
Proof. split; [reflexivity|]. vm_compute. reflexivity. Qed.

(** C10: [update_images] keeps the entries in their places and changes
    none of their keys other than [last_pulled] and [last_changed], also
    when it raises: [lat], [long], [zoom] and [name] are as before. *)
Theorem update_images_frame E (md : list dict) (w : world) :
  exists md',
    snd (fst (update_images E (Some md) w)) = Some md' /\
    length md' = length md /\
    forall i e, md !! i = Some e ->
      exists e', md' !! i = Some e' /\
        e' !! "lat" = e !! "lat" /\ e' !! "long" = e !! "long" /\
        e' !! "zoom" = e !! "zoom" /\ e' !! "name" = e !! "name" /\
        forall k, k <> "last_pulled" -> k <> "last_changed" ->
                  e' !! k = e !! k.
Proof.
  rewrite update_images_some.
  pose proof (update_loop_frame E md [] w) as Hframe.
  destruct (update_loop E md [] w) as [[w' md'] r]. cbn [fst snd] in *.
  exists md'. split; [reflexivity|]. split.
  - symmetry. eapply Forall2_length, Hframe.
  - intros i e He.
    destruct (Forall2_lookup_l _ _ _ _ _ Hframe He) as (e' & He' & Hkeys).
    exists e'. split; [exact He'|].
    repeat (split; [apply Hkeys; discriminate|]). exact Hkeys.
Qed.

Lemma update_images_frame_witness :
  exists md',
    snd (fst (update_images (serves "spot-2x2") (Some [stockholm; oslo])
                (fresh_world (stockholm_stored "grey-2x2") [stockholm; oslo])))
    = Some md' /\
    exists e', md' !! 1%nat = Some e' /\ e' !! "name" = Some (VStr "Oslo").
Proof.
  destruct (update_images_frame (serves "spot-2x2") [stockholm; oslo]
              (fresh_world (stockholm_stored "grey-2x2") [stockholm; oslo]))
    as (md' & Hrun & _ & Hkeys).
  exists md'. split; [exact Hrun|].
  destruct (Hkeys 1%nat oslo eq_refl) as (e' & He' & _ & _ & _ & Hname & _).
  exists e'. split; [exact He' | exact Hname].
Defined.

(** ** The whole run *)

Lemma key_format_ok_nonempty (k : string) : key_format_ok k = true -> k <> "".
Proof. intros H ->. discriminate H. Qed.

(** [main] with a well-formed key and a registry file. *)
Lemma main_eq E (w : world) (k : string) (md : option (list dict)) :
  api_key w = Some k -> key_format_ok k = true -> registry w = Some md ->
  main E w =
  match update_images E md w with
  | (w', _, inl err) => (w', inl err)
  | (w', md', inr (row :: rows)) =>
      (save_metadata md' ;;;
       modify (fun w => set_console (console w ++ [PrintTable (row :: rows)]) w) ;;;
       generate_html E (row :: rows)) w'
  | (w', _, inr []) => print "No updates to report." w'
  end.
Proof.
  intros Hkey Hok Hreg. pose proof (key_format_ok_nonempty k Hok) as Hne.
  unfold main. unfold bind at 1. unfold google_key_loaded.
  unfold bind at 1. unfold gets at 1. rewrite Hkey.
  destruct k as [|c k]; [congruence|]. rewrite Hok.
  unfold ret at 1. unfold bind at 1. unfold load_metadata. rewrite Hreg.
  destruct (update_images E md w) as [[w' md'] [err|[|row rows]]]; reflexivity.
Qed.

(** Reading an image for the report leaves the world as it is. *)
Lemma image_to_base64_world E (path : value) (w : world) :
  fst (image_to_base64 E path w) = w.
Proof.
  unfold image_to_base64, bind, open_rb_read, read_bytes, raise, ret.
  destruct path as [| b | n | r | p | p]; cbn [fst]; try reflexivity.
  - destruct (read_fd E _); reflexivity.
  - destruct (read_fd E n); reflexivity.
  - destruct (files w !! absolute E p); reflexivity.
  - destruct (files w !! absolute E p); reflexivity.
Qed.

(** The first loop of [generate_html] only reads the world. *)
Lemma embed_images_world E (rows : list dict) (w : world) :
  fst (embed_images E rows w) = w.
Proof.
  induction rows as [|row rows IH]; cbn [embed_images]; [reflexivity|].
  destruct (row !! "old_image") as [old_image|]; [|reflexivity].
  unfold bind at 1.
  pose proof (image_to_base64_world E old_image w) as Hold.
  destruct (image_to_base64 E old_image w) as [w1 [err|old64]];
    cbn [fst] in Hold; subst w1; [reflexivity|].
  destruct (_ !! "new_image") as [new_image|]; [|reflexivity].
  unfold bind at 1.
  pose proof (image_to_base64_world E new_image w) as Hnew.
  destruct (image_to_base64 E new_image w) as [w1 [err|new64]];
    cbn [fst] in Hnew; subst w1; [reflexivity|].
  unfold bind at 1.
  destruct (embed_images E rows w) as [w' [err|rows']]; cbn [fst] in *;
    subst; reflexivity.
Qed.

(** Writing a file with a bare name succeeds. *)
Lemma write_bare_file E (f content : string) (w : world) :
  slash_free f ->
  write_file E f content w =
  (set_files (fun fs => <[absolute E f := content]> fs) w, inr tt).
Proof. intros Hf. unfold write_file. now rewrite (bare_name_dir E f Hf). Qed.

(** [generate_html], once the images are read. *)
Lemma generate_html_eq E (rows : list dict) (w : world) :
  generate_html E rows w =
  match embed_images E rows w with
  | (w', inl err) => (w', inl err)
  | (w', inr rows') =>
      (set_console (console w' ++ [OsSystem "image_comparison.html"])
         (set_files
            (fun fs => <[absolute E "image_comparison.html" := render rows']> fs)
            w'),
       inr tt)
  end.
Proof.
  unfold generate_html. unfold bind at 1.
  destruct (embed_images E rows w) as [w' [err|rows']]; [reflexivity|].
  unfold bind. rewrite write_bare_file by reflexivity. reflexivity.
Qed.

Lemma generate_html_registry E (rows : list dict) (w : world) :
  registry (fst (generate_html E rows w)) = registry w.
Proof.
  rewrite generate_html_eq.
  pose proof (embed_images_world E rows w) as Hw.
  destruct (embed_images E rows w) as [w' [err|rows']]; cbn [fst] in *; subst;
    reflexivity.
Qed.

Lemma update_images_world E (md : option (list dict)) (w : world) :
  registry (fst (fst (update_images E md w))) = registry w /\
  api_key (fst (fst (update_images E md w))) = api_key w /\
  console (fst (fst (update_images E md w))) = console w.
Proof.
  destruct md as [md|]; [|cbn; auto].
  rewrite update_images_some.
  pose proof (update_loop_world E md [] w) as H.
  destruct (update_loop E md [] w) as [[w' md'] r]. exact H.
Qed.

(** C5, as the code has it: in a run with a well-formed key, when the
    fetch of a location (an entry with [lat] and [long]) gets no answer or
    an answer with a status from 400 to 599, after the pass over the
    locations before it went through, [update_images] raises the error of
    the fetch and [main] raises it too; the failed request is the last
    thing that happened (no file, stamp or request after it), the
    locations after it are as they were, and the registry file is as
    before the run. *)
Theorem fetch_failure_aborts_run E (w w1 : world) (k : string)
    (pre pre' post rows : list dict) (e : dict) (lat long : value) :
  api_key w = Some k -> key_format_ok k = true ->
  registry w = Some (Some (pre ++ e :: post)) ->
  update_images E (Some pre) w = (w1, Some pre', inr rows) ->
  e !! "lat" = Some lat -> e !! "long" = Some long ->
  (http_get E (length (sent w1)) (request_url w1 e) = NoAnswer \/
   exists status content,
     http_get E (length (sent w1)) (request_url w1 e) = Answer status content /\
     400 <= status < 600) ->
  exists err,
    (err = RequestException \/ exists status, err = HTTPError status) /\
    update_images E (Some (pre ++ e :: post)) w =
      (set_sent (sent w1 ++ [request_url w1 e]) w1,
       Some (pre' ++ e :: post), inl err) /\
    main E w = (set_sent (sent w1 ++ [request_url w1 e]) w1, inl err) /\
    registry (fst (main E w)) = registry w.
Proof.
  intros Hkey Hok Hreg Hpre Hlat Hlong Hfail.
  rewrite update_images_some in Hpre.
  destruct (update_loop E pre [] w) as [[w0 pre0] r0] eqn:Hloop.
  injection Hpre as -> -> ->. rename Hloop into Hpre.
  destruct (process_entry_fetch_fails E w1 e lat long Hlat Hlong Hfail)
    as (err & Hturn & Herr).
  assert (Hrun : update_images E (Some (pre ++ e :: post)) w =
                 (set_sent (sent w1 ++ [request_url w1 e]) w1,
                  Some (pre' ++ e :: post), inl err)).
  { rewrite update_images_some, update_loop_app, Hpre.
    cbn [update_loop]. rewrite Hturn. reflexivity. }
  assert (Hmain : main E w =
                  (set_sent (sent w1 ++ [request_url w1 e]) w1, inl err)).
  { rewrite (main_eq E w k _ Hkey Hok Hreg), Hrun. reflexivity. }
  exists err. repeat split; try assumption.
  rewrite Hmain. cbn [fst registry set_sent].
  pose proof (update_loop_world E pre [] w) as (Hr & _).
  now rewrite Hpre in Hr.
Qed.

Lemma fetch_failure_aborts_run_witness :
  exists err,
    (err = RequestException \/ exists status, err = HTTPError status) /\
    main refuses_after_first (fresh_world ∅ [stockholm; oslo; equator]) =
      (set_sent
         [request_url (fresh_world ∅ [stockholm; oslo; equator]) stockholm;
          request_url (fresh_world ∅ [stockholm; oslo; equator]) oslo]
         (set_ticks 2
            (set_files (fun _ => stockholm_both "grey-2x2" "grey-2x2")
               (fresh_world ∅ [stockholm; oslo; equator]))),
       inl err) /\
    registry (fst (main refuses_after_first
                     (fresh_world ∅ [stockholm; oslo; equator]))) =
    Some (Some [stockholm; oslo; equator]).
Proof.
  destruct (fetch_failure_aborts_run refuses_after_first
              (fresh_world ∅ [stockholm; oslo; equator])
              (set_sent
                 [request_url (fresh_world ∅ [stockholm; oslo; equator]) stockholm]
                 (set_ticks 2
                    (set_files (fun _ => stockholm_both "grey-2x2" "grey-2x2")
                       (fresh_world ∅ [stockholm; oslo; equator]))))
              sample_key [stockholm]
              [<["last_changed" := VStr "T1"]>
                 (<["last_pulled" := VStr "T0"]> stockholm)]
              [equator]
              [update_row (VStr "Stockholm") (VStr "59.33") (VStr "18.06") "New"
                 "/home/user/old_images/59_33_18_06.jpg"
                 "/home/user/new_images/59_33_18_06.jpg"]
              oslo (VStr "59.91") (VStr "10.75"))
    as (err & Herr & _ & Hmain & Hreg);
    [reflexivity | reflexivity | reflexivity | vm_compute; reflexivity
    | reflexivity | reflexivity | | ].
  - right. exists 403, "Forbidden". split; [reflexivity | lia].
  - exists err. split; [exact Herr|]. split; [exact Hmain | exact Hreg].
Defined.

(** C5 as stated fails: an answer with a status that is no success and
    no error either (here 304) does not stop the run; its body is taken as
    the image, the next location is fetched, and the registry is saved. *)
Lemma not_modified_run_goes_on :
  http_get (answers 304 "") 0
    (request_url (fresh_world ∅ [stockholm; oslo]) stockholm)
  = Answer 304 "" /\
  snd (main (answers 304 "") (fresh_world ∅ [stockholm; oslo])) = inr tt /\
  sent (fst (main (answers 304 "") (fresh_world ∅ [stockholm; oslo]))) =
    [request_url (fresh_world ∅ [stockholm; oslo]) stockholm;
     request_url (fresh_world ∅ [stockholm; oslo]) oslo] /\
  registry (fst (main (answers 304 "") (fresh_world ∅ [stockholm; oslo]))) =
    Some (Some [<["last_changed" := VStr "T1"]>
                  (<["last_pulled" := VStr "T0"]> stockholm);
                <["last_changed" := VStr "T3"]>
                  (<["last_pulled" := VStr "T2"]> oslo)]).
Proof. repeat split; vm_compute; reflexivity. Qed.

(** C6, as the code has it: in a run with a well-formed key and a
    registry file, the registry file is saved exactly when [update_images]
    returns at least one row, and it returns one row per entry of the
    registry, whatever the status; so when [update_images] returns on a
    registry that is not empty, the file is saved with the [last_pulled]
    stamps of this run, also when every status is [Unchanged].  When
    [update_images] returns no row (a registry that is empty or [null]),
    or raises, the registry file is left as it was; when it raises, [main]
    raises the same error. *)
Theorem registry_saved_iff_rows E (w : world) (k : string)
    (md : option (list dict)) :
  api_key w = Some k -> key_format_ok k = true -> registry w = Some md ->
  match update_images E md w with
  | (w1, md', inr rows) =>
      (rows <> [] -> registry (fst (main E w)) = Some md') /\
      (rows = [] -> registry (fst (main E w)) = registry w) /\
      (forall l, md = Some l -> length rows = length l) /\
      (forall l' i e', md' = Some l' -> l' !! i = Some e' ->
         exists n, (ticks w <= n)%nat /\
                   e' !! "last_pulled" = Some (VStr (clock E n)))
  | (w1, _, inl err) =>
      main E w = (w1, inl err) /\ registry (fst (main E w)) = registry w
  end.
Proof.
  intros Hkey Hok Hreg.
  rewrite (main_eq E w k md Hkey Hok Hreg).
  pose proof (update_images_world E md w) as (Hr & _).
  destruct (update_images E md w) as [[w1 md'] [err|rows]] eqn:Hrun;
    cbn [fst] in Hr; [split; [reflexivity | exact Hr]|].
  split; [|split; [|split]].
  - destruct rows as [|row rows]; [congruence|]. intros _.
    unfold bind, save_metadata, modify. cbn [fst snd].
    now rewrite generate_html_registry.
  - intros ->. cbn [fst print modify registry set_console]. exact Hr.
  - intros l ->. rewrite update_images_some in Hrun.
    destruct (update_loop E l [] w) as [[w2 l2] r] eqn:Hloop.
    injection Hrun as -> <- ->.
    apply update_loop_rows in Hloop as (rows' & -> & Hall). cbn [app].
    symmetry. eapply Forall3_length_lr, Hall.
  - intros l' i e' -> He'. destruct md as [l|]; [|discriminate Hrun].
    rewrite update_images_some in Hrun.
    destruct (update_loop E l [] w) as [[w2 l2] r] eqn:Hloop.
    injection Hrun as -> -> ->.
    apply update_loop_rows in Hloop as (rows' & -> & Hall).
    destruct (Forall3_lookup_m _ _ _ _ _ _ Hall He')
      as (e & row & _ & _ & wa & wb & Hle & Hturn).
    apply process_entry_stamps in Hturn as (Hpulled & _).
    exists (ticks wa). split; assumption.
Qed.

Lemma registry_saved_iff_rows_witness :
  registry (fst (main (serves "grey-2x2")
                   (fresh_world (stockholm_stored "grey-2x2") [stockholm]))) =
  Some (Some [<["last_pulled" := VStr "T0"]> stockholm]).
Proof.
  pose proof (registry_saved_iff_rows (serves "grey-2x2")
                (fresh_world (stockholm_stored "grey-2x2") [stockholm])
                sample_key (Some [stockholm]) eq_refl eq_refl eq_refl) as H.
  assert (Hrun :
    update_images (serves "grey-2x2") (Some [stockholm])
      (fresh_world (stockholm_stored "grey-2x2") [stockholm]) =
    (set_sent
       [request_url (fresh_world ∅ [stockholm]) stockholm]
       (set_ticks 1
          (set_files (fun _ => stockholm_both "grey-2x2" "grey-2x2")
             (fresh_world (stockholm_stored "grey-2x2") [stockholm]))),
     Some [<["last_pulled" := VStr "T0"]> stockholm],
     inr [update_row (VStr "Stockholm") (VStr "59.33") (VStr "18.06")
            "Unchanged" "/home/user/old_images/59_33_18_06.jpg"
            "/home/user/new_images/59_33_18_06.jpg"]))
    by (vm_compute; reflexivity).
  rewrite Hrun in H. destruct H as [Hsaved _].
  apply Hsaved. discriminate.
Defined.

(** C6 as stated fails: in a run whose only location comes out
    [Unchanged], the registry file is saved, and it holds the
    [last_pulled] stamp of that run. *)
Lemma unchanged_run_saves_registry :
  snd (update_images (serves "grey-2x2") (Some [stockholm])
         (fresh_world (stockholm_stored "grey-2x2") [stockholm])) =
  inr [update_row (VStr "Stockholm") (VStr "59.33") (VStr "18.06") "Unchanged"
         "/home/user/old_images/59_33_18_06.jpg"
         "/home/user/new_images/59_33_18_06.jpg"] /\
  registry (fresh_world (stockholm_stored "grey-2x2") [stockholm]) =
  Some (Some [stockholm]) /\
  stockholm !! "last_pulled" = None /\
  registry (fst (main (serves "grey-2x2")
                   (fresh_world (stockholm_stored "grey-2x2") [stockholm]))) =
  Some (Some [<["last_pulled" := VStr "T0"]> stockholm]).
Proof. repeat split; vm_compute; reflexivity. Qed.

(** ** The report *)

(** A row without the key [status] renders as the blank text between the
    tags of the [for] block. *)
Lemma html_entry_without_status (row : dict) :
  row !! "status" = None ->
  html_entry row = "
                " +:+ "" +:+ "
            ".
Proof. intros H. unfold html_entry. now rewrite H. Qed.

(** The rows of [update_images] have the key [Status], not [status]. *)
Lemma update_row_status name lat long status old_image new_image :
  update_row name lat long status old_image new_image !! "Status"
  = Some (VStr status) /\
  update_row name lat long status old_image new_image !! "status" = None.
Proof. unfold update_row. by simplify_map_eq. Qed.

(** So the report of rows that [update_images] made has the blank text
    once per row between the head and the tail, and nothing else. *)
Lemma render_update_rows (rows : list dict) :
  Forall (fun row => row !! "status" = None) rows ->
  render rows =
  html_head
  +:+ foldr (fun _ html => "
                " +:+ "" +:+ "
            " +:+ html) "" rows
  +:+ html_tail.
Proof.
  intros Hrows. unfold render. f_equal. f_equal.
  induction Hrows as [|row rows Hrow _ IH]; cbn [foldr]; [reflexivity|].
  now rewrite IH, (html_entry_without_status row Hrow).
Qed.

(** C9 fails on the code: a run in which the only location comes out
    [Changed] writes a report with no image pair in it. *)
Theorem changed_row_not_rendered :
  snd (update_images (serves "spot-2x2") (Some [stockholm])
         (fresh_world (stockholm_stored "grey-2x2") [stockholm])) =
  inr [update_row (VStr "Stockholm") (VStr "59.33") (VStr "18.06") "Changed"
         "/home/user/old_images/59_33_18_06.jpg"
         "/home/user/new_images/59_33_18_06.jpg"] /\
  exists html,
    files (fst (main (serves "spot-2x2")
                  (fresh_world (stockholm_stored "grey-2x2") [stockholm])))
    !! "/home/user/image_comparison.html" = Some html /\
    occurrences image_pair_tag html = O /\
    occurrences "<img" html = O.
Proof.
  split; [vm_compute; reflexivity|].
  eexists. split; [vm_compute; reflexivity|].
  split; vm_compute; reflexivity.
Qed.

(** * Further properties *)

(** ** File names *)

(** X1: the name [format_filename] makes is a stem followed by [.jpg];
    the stem is as long as the two coordinate texts and their separator,
    and holds no dot and no minus sign. *)
Theorem format_filename_stem (lat long : value) :
  exists stem,
    format_filename lat long = stem +:+ ".jpg" /\
    String.length stem =
      (String.length (py_str lat) + 1 + String.length (py_str long))%nat /\
    str_count "." stem = O /\ str_count "-" stem = O.
Proof.
  eexists. split; [reflexivity|]. split; [|split].
  - rewrite !str_replace_length, !str_length_append. cbn [String.length]. lia.
  - apply str_replace_keeps_out; [discriminate|].
    apply str_replace_removes. discriminate.
  - apply str_replace_removes. discriminate.
Qed.

(** ** The API key *)

Lemma chomp_length (s t : string) :
  chomp s = Some t -> String.length s = S (String.length t).
Proof.
  revert t. induction s as [|c s IH]; intros t; [discriminate|].
  cbn [chomp]. destruct s as [|d s].
  - destruct (Ascii.eqb c "010"); intros [= <-]; reflexivity.
  - destruct (chomp (String d s)) as [t'|] eqn:Ht; intros [= <-].
    cbn [String.length]. f_equal. now apply IH.
Qed.

Lemma chomp_line_feed (s : string) :
  chomp (s +:+ String "010" EmptyString) = Some s.
Proof.
  induction s as [|c s IH]; [reflexivity|].
  change (String c s +:+ String "010" EmptyString)
    with (String c (s +:+ String "010" EmptyString)).
  destruct (s +:+ String "010" EmptyString) as [|d t] eqn:Hs.
  - destruct s; discriminate Hs.
  - change (chomp (String c (String d t)))
      with (String c <$> chomp (String d t)).
    now rewrite IH.
Qed.

(** X2: a key that passes the format check has 35 to 41 characters, the
    41st being a line feed; and a key of 35 to 40 characters of the class
    still passes with one line feed after it (the [$] of the pattern). *)
Theorem key_format_ok_length (k : string) :
  (key_format_ok k = true ->
   (35 <= String.length k <= 41)%nat /\
   (String.length k = 41%nat -> exists body, chomp k = Some body)) /\
  (key_body k = true -> key_format_ok (k +:+ String "010" EmptyString) = true).
Proof.
  split.
  - unfold key_format_ok, key_body. intros H.
    apply orb_true_iff in H as [H|H].
    + apply andb_true_iff in H as [_ H]. apply andb_true_iff in H as [H1 H2].
      apply Nat.leb_le in H1, H2. split; [lia|]. intros Hlen. lia.
    + destruct (chomp k) as [body|] eqn:Hc; [|discriminate H].
      apply andb_true_iff in H as [_ H]. apply andb_true_iff in H as [H1 H2].
      apply Nat.leb_le in H1, H2. apply chomp_length in Hc.
      split; [lia|]. intros _. eauto.
  - intros H. unfold key_format_ok. rewrite chomp_line_feed, H.
    apply orb_true_r.
Qed.

Lemma key_format_ok_length_witness :
  (35 <= String.length sample_key <= 41)%nat /\
  key_format_ok (sample_key +:+ String "010" EmptyString) = true.
Proof.
  split.
  - apply (proj1 (key_format_ok_length sample_key)). reflexivity.
  - apply (proj2 (key_format_ok_length sample_key)). reflexivity.
Defined.

(** ** Runs that stop before the pass *)

(** X3: with no key, or an empty one, the run writes the placeholder into
    [.env], prints how to go on and ends: no request, no stamp, and the
    registry file and every other file as before. *)
Theorem main_without_key E (w : world) :
  api_key w = None \/ api_key w = Some "" ->
  main E w =
    (set_console
       (console w ++ [Print "No GOOGLE_MAPS_API_KEY environment variable found. Open the .env file and enter your API key."])
       (set_files
          (fun fs => <[absolute E ".env" := "GOOGLE_MAPS_API_KEY=<your_key_here>"]> fs)
          w),
     inr tt).
Proof.
  intros [H|H]; unfold main, google_key_loaded, bind, gets; cbn beta;
    rewrite H; rewrite write_bare_file by reflexivity; reflexivity.
Qed.

Lemma main_without_key_witness :
  main (serves "grey-2x2") (bare_world None (Some (Some [stockholm]))) =
    (set_console
       [Print "No GOOGLE_MAPS_API_KEY environment variable found. Open the .env file and enter your API key."]
       (set_files
          (fun fs => <["/home/user/.env" := "GOOGLE_MAPS_API_KEY=<your_key_here>"]> fs)
          (bare_world None (Some (Some [stockholm])))),
     inr tt).
Proof.
  apply (main_without_key (serves "grey-2x2")
           (bare_world None (Some (Some [stockholm])))).
  left. reflexivity.
Defined.

(** X4: with a key that fails the format check, the run prints that the
    key is invalid, a message of its own, and ends with nothing else
    changed: no file written, no request, the registry file as before. *)
Theorem main_with_malformed_key E (w : world) (k : string) :
  api_key w = Some k -> k <> "" -> key_format_ok k = false ->
  main E w =
    (set_console
       (console w ++ [Print "Invalid GOOGLE_MAPS_API_KEY. Check the .env file and enter a valid API key."])
       w,
     inr tt).
Proof.
  intros Hkey Hne Hbad. unfold main, google_key_loaded, bind, gets. cbn beta.
  rewrite Hkey. destruct k as [|c k]; [congruence|]. now rewrite Hbad.
Qed.

Lemma main_with_malformed_key_witness :
  main (serves "grey-2x2")
    (bare_world (Some "<your_key_here>") (Some (Some [stockholm]))) =
    (set_console
       [Print "Invalid GOOGLE_MAPS_API_KEY. Check the .env file and enter a valid API key."]
       (bare_world (Some "<your_key_here>") (Some (Some [stockholm]))),
     inr tt).
Proof.
  apply (main_with_malformed_key (serves "grey-2x2")
           (bare_world (Some "<your_key_here>") (Some (Some [stockholm])))
           "<your_key_here>");
    [reflexivity | discriminate | reflexivity].
Defined.

(** X5: with a good key and no registry file, the run writes the
    two-entry template as the registry file, says so, fetches nothing and
    reports no updates. *)
Theorem main_without_registry E (w : world) (k : string) :
  api_key w = Some k -> key_format_ok k = true -> registry w = None ->
  main E w =
    (set_console
       (console w ++
        [Print "No images.json file found. Creating one with a template, enter your own data and re-run the script.";
         Print "No updates to report."])
       (set_registry (Some (Some JSON_TEMPLATE)) w),
     inr tt).
Proof.
  intros Hkey Hok Hreg. pose proof (key_format_ok_nonempty k Hok) as Hne.
  unfold main, google_key_loaded, bind, gets. cbn beta. rewrite Hkey.
  destruct k as [|c k]; [congruence|]. rewrite Hok.
  unfold ret at 1. unfold load_metadata. rewrite Hreg.
  unfold update_images, bind, print, save_metadata, modify, ret, set_console,
    set_registry.
  cbn. rewrite <- app_assoc. reflexivity.
Qed.

Lemma main_without_registry_witness :
  main (serves "grey-2x2") (bare_world (Some sample_key) None) =
    (set_console
       [Print "No images.json file found. Creating one with a template, enter your own data and re-run the script.";
        Print "No updates to report."]
       (set_registry (Some (Some JSON_TEMPLATE))
          (bare_world (Some sample_key) None)),
     inr tt).
Proof.
  apply (main_without_registry (serves "grey-2x2")
           (bare_world (Some sample_key) None) sample_key); reflexivity.
Defined.

(** X6: with a good key and a registry file that lists no location (an
    empty list, or [null]), the run fetches nothing, saves nothing and
    reports no updates. *)
Theorem main_with_empty_registry E (w : world) (k : string) :
  api_key w = Some k -> key_format_ok k = true ->
  registry w = Some None \/ registry w = Some (Some []) ->
  main E w =
    (set_console (console w ++ [Print "No updates to report."]) w, inr tt).
Proof.
  intros Hkey Hok [Hreg|Hreg];
    rewrite (main_eq E w k _ Hkey Hok Hreg); reflexivity.
Qed.

Lemma main_with_empty_registry_witness :
  main (serves "grey-2x2") (bare_world (Some sample_key) (Some (Some []))) =
    (set_console [Print "No updates to report."]
       (bare_world (Some sample_key) (Some (Some []))),
     inr tt).
Proof.
  apply (main_with_empty_registry (serves "grey-2x2")
           (bare_world (Some sample_key) (Some (Some []))) sample_key);
    [reflexivity | reflexivity | right; reflexivity].
Defined.

(** ** One fetch *)



(** ** One turn, once the image is fetched *)

Lemma reference_path_eq E (e : dict) (lat long : value) :
  e !! "lat" = Some lat -> e !! "long" = Some long ->
  reference_path E e = absolute E (path_join OLD_IMAGES (format_filename lat long)) /\
  candidate_path E e = absolute E (path_join NEW_IMAGES (format_filename lat long)).
Proof. intros H1 H2. unfold reference_path, candidate_path. now rewrite H1, H2. Qed.

Lemma update_row_lookup_status name lat long verdict old_image new_image :
  update_row name lat long verdict old_image new_image !! "Status"
  = Some (VStr verdict).
Proof. unfold update_row. by simplify_map_eq. Qed.

(** A turn on an entry with coordinates whose fetch is answered without
    an error status and written: what it does, by whether a stored image
    is there after the fetch and what the comparison says. *)
Lemma process_entry_fetched E (w : world) (e : dict) (lat long : value)
    (status : Z) (content : string) :
  e !! "lat" = Some lat -> e !! "long" = Some long ->
  http_get E (length (sent w)) (request_url w e) = Answer status content ->
  ~ (400 <= status < 600) ->
  dir_exists E (dirname (candidate_path E e)) = true ->
  let old_image := path_join OLD_IMAGES (format_filename lat long) in
  let new_image := path_join NEW_IMAGES (format_filename lat long) in
  let w2 := set_ticks (S (ticks w))
              (set_files (fun fs => <[absolute E new_image := content]> fs)
                 (set_sent (sent w ++ [request_url w e]) w)) in
  let e1 := <["last_pulled" := VStr (clock E (ticks w))]> e in
  let w3 := set_ticks (S (S (ticks w)))
              (set_files (fun fs => <[absolute E old_image := content]> fs) w2) in
  let e2 := <["last_changed" := VStr (clock E (S (ticks w)))]> e1 in
  let finish (w' : world) (e' : dict) (verdict : string) :=
    match e !! "name" with
    | None => ((w', e'), inl (KeyError "name"))
    | Some name =>
        ((w', e'),
         inr (update_row name lat long verdict
                (absolute E old_image) (absolute E new_image)))
    end in
  let promote (verdict : string) :=
    if dir_exists E (dirname (reference_path E e)) then finish w3 e2 verdict
    else ((w2, e1), inl (FileNotFoundError old_image)) in
  process_entry E (w, e) =
  match files w2 !! absolute E old_image with
  | None => promote "New"
  | Some _ =>
      match snd (images_are_a_match E old_image new_image w2) with
      | inl err => ((w2, e1), inl err)
      | inr true => finish w2 e1 "Unchanged"
      | inr false => promote "Changed"
      end
  end.
Proof.
  intros Hlat Hlong Hget Hstatus Hdir. cbv zeta.
  destruct (reference_path_eq E e lat long Hlat Hlong) as [Hr Hc].
  rewrite Hr. rewrite Hc in Hdir.
  rewrite process_entry_eq, Hlat, Hlong.
  unfold request_url in *. rewrite Hlat, Hlong in *.
  cbn [default from_option id] in *.
  rewrite download_image_eq. cbv zeta. rewrite Hget.
  replace ((400 <=? status) && (status <? 600)) with false by lia.
  rewrite Hdir. cbv zeta.
  set (old := absolute E (path_join OLD_IMAGES (format_filename lat long))).
  set (new := absolute E (path_join NEW_IMAGES (format_filename lat long))).
  cbn [files set_ticks set_files set_sent ticks].
  rewrite (lookup_insert_eq _ new).
  destruct (<[new:=content]> (files w) !! old) as [stored|] eqn:Hold.
  - rewrite bool_decide_eq_true_2 by eauto.
    destruct (snd (images_are_a_match E _ _ _)) as [err|[|]]; reflexivity.
  - rewrite bool_decide_eq_false_2 by (intros [x Hx]; discriminate Hx).
    reflexivity.
Qed.

(** A turn that yields a row had its coordinates, its name, an answer
    without an error status, and a directory for the fetched image. *)
Lemma process_entry_ok_fetch E (w w' : world) (e e' row : dict) :
  process_entry E (w, e) = ((w', e'), inr row) ->
  exists lat long name status content,
    e !! "lat" = Some lat /\ e !! "long" = Some long /\
    e !! "name" = Some name /\
    http_get E (length (sent w)) (request_url w e) = Answer status content /\
    ~ (400 <= status < 600) /\
    dir_exists E (dirname (candidate_path E e)) = true.
Proof.
  intros Hrun.
  destruct (e !! "lat") as [lat|] eqn:Hlat;
    [|rewrite process_entry_eq, Hlat in Hrun; discriminate Hrun].
  destruct (e !! "long") as [long|] eqn:Hlong;
    [|rewrite process_entry_eq, Hlat, Hlong in Hrun; discriminate Hrun].
  destruct (e !! "name") as [name|] eqn:Hname.
  2:{ exfalso. rewrite process_entry_eq, Hlat, Hlong, Hname in Hrun.
      cbv zeta in Hrun. repeat case_match; simplify_eq. }
  exists lat, long, name.
  destruct (http_get E (length (sent w)) (request_url w e))
    as [|status content] eqn:Hget.
  - exfalso.
    destruct (process_entry_fetch_fails E w e lat long Hlat Hlong) as (err & H & _);
      [left; exact Hget|]. rewrite H in Hrun. discriminate Hrun.
  - exists status, content.
    assert (Hst : ~ (400 <= status < 600)).
    { intros Hbad.
      destruct (process_entry_fetch_fails E w e lat long Hlat Hlong) as (err & H & _);
        [right; eauto|]. rewrite H in Hrun. discriminate Hrun. }
    repeat split; try reflexivity; try exact Hst.
    destruct (dir_exists E (dirname (candidate_path E e))) eqn:Hdir; [reflexivity|].
    exfalso. destruct (reference_path_eq E e lat long Hlat Hlong) as [_ Hc].
    rewrite Hc in Hdir.
    rewrite process_entry_eq, Hlat, Hlong, download_image_eq in Hrun.
    cbv zeta in Hrun. unfold request_url in Hget. rewrite Hlat, Hlong in Hget.
    cbn [default from_option id] in Hget. rewrite Hget in Hrun.
    replace ((400 <=? status) && (status <? 600)) with false in Hrun by lia.
    rewrite Hdir in Hrun. discriminate Hrun.
Qed.

(** A turn on an entry with coordinates whose texts hold no [/] and
    whose fetch is answered without an error status: what it does, by
    whether a stored image was there and what the comparison says. *)
Lemma process_entry_plain E (w : world) (e : dict) (lat long : value)
    (status : Z) (content : string) :
  e !! "lat" = Some lat -> e !! "long" = Some long -> plain_coordinates e ->
  http_get E (length (sent w)) (request_url w e) = Answer status content ->
  ~ (400 <= status < 600) ->
  let w2 := set_ticks (S (ticks w))
              (set_files (fun fs => <[candidate_path E e := content]> fs)
                 (set_sent (sent w ++ [request_url w e]) w)) in
  let e1 := <["last_pulled" := VStr (clock E (ticks w))]> e in
  let w3 := set_ticks (S (S (ticks w)))
              (set_files (fun fs => <[reference_path E e := content]> fs) w2) in
  let e2 := <["last_changed" := VStr (clock E (S (ticks w)))]> e1 in
  let finish (w' : world) (e' : dict) (verdict : string) :=
    match e !! "name" with
    | None => ((w', e'), inl (KeyError "name"))
    | Some name =>
        ((w', e'),
         inr (update_row name lat long verdict
                (reference_path E e) (candidate_path E e)))
    end in
  process_entry E (w, e) =
  match files w !! reference_path E e with
  | None => finish w3 e2 "New"
  | Some _ =>
      match snd (images_are_a_match E
                   (path_join OLD_IMAGES (format_filename lat long))
                   (path_join NEW_IMAGES (format_filename lat long)) w2) with
      | inl err => ((w2, e1), inl err)
      | inr true => finish w2 e1 "Unchanged"
      | inr false => finish w3 e2 "Changed"
      end
  end.
Proof.
  intros Hlat Hlong Hplain Hget Hstatus. cbv zeta.
  destruct (plain_coordinates_paths E e Hplain) as [Hdistinct [Hcand Href]].
  rewrite (process_entry_fetched E w e lat long status content
             Hlat Hlong Hget Hstatus Hcand).
  cbv zeta. rewrite Href.
  destruct (reference_path_eq E e lat long Hlat Hlong) as [Hr Hc].
  rewrite <- Hr, <- Hc.
  cbn [files set_ticks set_files set_sent].
  rewrite lookup_insert_ne by (apply not_eq_sym; exact Hdistinct).
  reflexivity.
Qed.

(** What the comparison reads after the fetch, for coordinate texts
    without [/]: the stored image as it was, and the body just fetched. *)
Lemma imread_after_fetch E (w w2 : world) (e : dict) (lat long : value)
    (content : string) :
  e !! "lat" = Some lat -> e !! "long" = Some long -> plain_coordinates e ->
  files w2 = <[candidate_path E e := content]> (files w) ->
  snd (imread E (path_join OLD_IMAGES (format_filename lat long)) w2) =
    inr (files w !! reference_path E e ≫= imread_decode E) /\
  snd (imread E (path_join NEW_IMAGES (format_filename lat long)) w2) =
    inr (imread_decode E content).
Proof.
  intros Hlat Hlong Hplain Hfiles.
  destruct (plain_coordinates_paths E e Hplain) as [Hdistinct _].
  destruct (reference_path_eq E e lat long Hlat Hlong) as [Hr Hc].
  unfold imread, gets. cbn [snd]. rewrite Hfiles, <- Hr, <- Hc. split.
  - rewrite lookup_insert_ne by (apply not_eq_sym; exact Hdistinct). reflexivity.
  - rewrite lookup_insert_eq. reflexivity.
Qed.

(** X8: a turn that yields a row, on a location whose coordinate texts
    hold no [/], says [New] exactly when the location had no stored image
    before the turn; when it had one, the row says [Changed] or
    [Unchanged]. *)
Theorem status_new_iff_no_reference E (w w' : world) (e e' row : dict) :
  plain_coordinates e ->
  process_entry E (w, e) = ((w', e'), inr row) ->
  (row !! "Status" = Some (VStr "New") <-> files w !! reference_path E e = None) /\
  (is_Some (files w !! reference_path E e) ->
   row !! "Status" = Some (VStr "Changed") \/
   row !! "Status" = Some (VStr "Unchanged")).
Proof.
  intros Hplain Hrun.
  destruct (process_entry_ok_fetch E w w' e e' row Hrun)
    as (lat & long & name & status & content
        & Hlat & Hlong & Hname & Hget & Hst & _).
  rewrite (process_entry_plain E w e lat long status content
             Hlat Hlong Hplain Hget Hst) in Hrun.
  cbv zeta in Hrun. rewrite Hname in Hrun.
  destruct (files w !! reference_path E e) as [stored|].
  - destruct (snd (images_are_a_match E _ _ _)) as [err|[|]];
      simplify_eq; rewrite update_row_lookup_status; split;
      try (split; intros [=]); auto.
  - simplify_eq. rewrite update_row_lookup_status. split; [done|].
    intros [x Hx]. discriminate Hx.
Qed.

Lemma status_new_iff_no_reference_witness :
  update_row (VStr "Stockholm") (VStr "59.33") (VStr "18.06") "New"
    "/home/user/old_images/59_33_18_06.jpg"
    "/home/user/new_images/59_33_18_06.jpg" !! "Status" = Some (VStr "New").
Proof.
  destruct (status_new_iff_no_reference (serves "grey-2x2")
              (fresh_world ∅ [stockholm])
              (set_ticks 2
                 (set_files (fun _ => stockholm_both "grey-2x2" "grey-2x2")
                    (set_sent
                       [request_url (fresh_world ∅ [stockholm]) stockholm]
                       (fresh_world ∅ [stockholm]))))
              stockholm
              (<["last_changed" := VStr "T1"]>
                 (<["last_pulled" := VStr "T0"]> stockholm))
              (update_row (VStr "Stockholm") (VStr "59.33") (VStr "18.06")
                 "New" "/home/user/old_images/59_33_18_06.jpg"
                 "/home/user/new_images/59_33_18_06.jpg"))
    as [Hnew _]; [split; reflexivity | vm_compute; reflexivity |].
  apply Hnew. reflexivity.
Defined.

(** X9: after a turn that yields a row, on a location whose coordinate
    texts hold no [/], the fetched body is the content of the location's
    file under [new_images]; when the row says [New] or [Changed] it is
    also the content of the stored image, and when the row says
    [Unchanged] the stored image is as it was.  No other file has
    changed. *)
Theorem turn_files E (w w' : world) (e e' row : dict) :
  plain_coordinates e ->
  process_entry E (w, e) = ((w', e'), inr row) ->
  exists status content,
    http_get E (length (sent w)) (request_url w e) = Answer status content /\
    files w' !! candidate_path E e = Some content /\
    (row !! "Status" = Some (VStr "New") \/
     row !! "Status" = Some (VStr "Changed") ->
     files w' !! reference_path E e = Some content) /\
    (row !! "Status" = Some (VStr "Unchanged") ->
     files w' !! reference_path E e = files w !! reference_path E e) /\
    (forall p, p <> candidate_path E e -> p <> reference_path E e ->
               files w' !! p = files w !! p).
Proof.
  intros Hplain Hrun.
  destruct (process_entry_ok_fetch E w w' e e' row Hrun)
    as (lat & long & name & status & content
        & Hlat & Hlong & Hname & Hget & Hst & _).
  exists status, content. split; [exact Hget|].
  rewrite (process_entry_plain E w e lat long status content
             Hlat Hlong Hplain Hget Hst) in Hrun.
  cbv zeta in Hrun. rewrite Hname in Hrun.
  destruct (plain_coordinates_paths E e Hplain) as [Hdistinct _].
  destruct (files w !! reference_path E e) as [stored|] eqn:Hold;
    [destruct (snd (images_are_a_match E _ _ _)) as [err|[|]]|];
    simplify_eq; rewrite update_row_lookup_status;
    cbn [files set_ticks set_files set_sent];
    repeat split;
    try (intros [[=]|[=]]); try (intros [=]); intros;
    simplify_map_eq; done.
Qed.

Lemma turn_files_witness :
  exists status content,
    http_get (serves "spot-2x2") 0
      (request_url (fresh_world (stockholm_stored "grey-2x2") [stockholm]) stockholm)
    = Answer status content /\
    content = "spot-2x2".
Proof.
  destruct (turn_files (serves "spot-2x2")
              (fresh_world (stockholm_stored "grey-2x2") [stockholm])
              (set_ticks 2
                 (set_files (fun _ => stockholm_both "spot-2x2" "spot-2x2")
                    (set_sent
                       [request_url (fresh_world ∅ [stockholm]) stockholm]
                       (fresh_world ∅ [stockholm]))))
              stockholm
              (<["last_changed" := VStr "T1"]>
                 (<["last_pulled" := VStr "T0"]> stockholm))
              (update_row (VStr "Stockholm") (VStr "59.33") (VStr "18.06")
                 "Changed" "/home/user/old_images/59_33_18_06.jpg"
                 "/home/user/new_images/59_33_18_06.jpg"))
    as (status & content & Hget & Hnew & _);
    [split; reflexivity | vm_compute; reflexivity|].
  exists status, content. split; [exact Hget|].
  vm_compute in Hnew. now injection Hnew.
Defined.

(** Two paths that decode into the same grid match. *)
Lemma images_are_a_match_same E old new w (img : ndarray) :
  snd (imread E old w) = inr (Some img) ->
  snd (imread E new w) = inr (Some img) ->
  images_are_a_match E old new w = (w, inr true).
Proof.
  intros H1 H2.
  rewrite (images_are_a_match_decoded E old new w img img H1 H2).
  rewrite (absdiff_same_shape E img img eq_refl).
  f_equal. f_equal. apply array_equal_zeros_true.
  cbn [nd_item nd_shape]. intros. unfold saturate_u8. lia.
Qed.

(** X10: when the stored image of a location is there but does not
    decode, or the fetched body does not decode, a turn on that location
    (with its three keys, coordinate texts without [/] and a fetch that
    succeeds) says [Changed], stamps [last_changed], and puts the fetched
    body in place of the stored image. *)
Theorem undecodable_image_is_replaced E (w : world) (e : dict)
    (status : Z) (stored content : string) :
  is_location e -> plain_coordinates e ->
  http_get E (length (sent w)) (request_url w e) = Answer status content ->
  ~ (400 <= status < 600) ->
  files w !! reference_path E e = Some stored ->
  imread_decode E stored = None \/ imread_decode E content = None ->
  exists w' e' row,
    process_entry E (w, e) = ((w', e'), inr row) /\
    row !! "Status" = Some (VStr "Changed") /\
    files w' !! reference_path E e = Some content /\
    e' !! "last_changed" = Some (VStr (clock E (S (ticks w)))).
Proof.
  intros ([lat Hlat] & [long Hlong] & [name Hname]) Hplain Hget Hst Hstored Hbad.
  rewrite (process_entry_plain E w e lat long status content
             Hlat Hlong Hplain Hget Hst).
  cbv zeta. rewrite Hname, Hstored.
  destruct (imread_after_fetch E w
              (set_ticks (S (ticks w))
                 (set_files (fun fs => <[candidate_path E e := content]> fs)
                    (set_sent (sent w ++ [request_url w e]) w)))
              e lat long content Hlat Hlong Hplain eq_refl) as [Hold Hnew].
  rewrite Hstored in Hold. change (Some stored ≫= imread_decode E)
    with (imread_decode E stored) in Hold.
  rewrite images_are_a_match_undecoded.
  - cbn [snd]. do 3 eexists. split; [reflexivity|].
    rewrite update_row_lookup_status.
    cbn [files set_ticks set_files set_sent].
    split; [reflexivity|]. split; by simplify_map_eq.
  - rewrite Hold, Hnew. destruct Hbad as [->| ->]; auto.
Qed.

Lemma undecodable_image_is_replaced_witness :
  exists w' e' row,
    process_entry (serves "grey-2x2")
      (fresh_world (stockholm_stored "not an image") [stockholm], stockholm)
    = ((w', e'), inr row) /\
    row !! "Status" = Some (VStr "Changed") /\
    files w' !! "/home/user/old_images/59_33_18_06.jpg" = Some "grey-2x2".
Proof.
  destruct (undecodable_image_is_replaced (serves "grey-2x2")
              (fresh_world (stockholm_stored "not an image") [stockholm])
              stockholm 200 "not an image" "grey-2x2")
    as (w' & e' & row & Hrun & Hstatus & Hfile & _).
  - repeat split; eexists; reflexivity.
  - split; reflexivity.
  - reflexivity.
  - lia.
  - reflexivity.
  - left. reflexivity.
  - exists w', e', row. repeat split; assumption.
Defined.

(** X11: when the fetched body is byte for byte the stored image of the
    location and decodes, a turn on that location (with its three keys,
    coordinate texts without [/] and a fetch that succeeds) says
    [Unchanged]: the stored image and [last_changed] stay as they were,
    and the clock is read once. *)
Theorem identical_image_is_unchanged E (w : world) (e : dict)
    (status : Z) (content : string) :
  is_location e -> plain_coordinates e ->
  http_get E (length (sent w)) (request_url w e) = Answer status content ->
  ~ (400 <= status < 600) ->
  files w !! reference_path E e = Some content ->
  is_Some (imread_decode E content) ->
  exists w' e' row,
    process_entry E (w, e) = ((w', e'), inr row) /\
    row !! "Status" = Some (VStr "Unchanged") /\
    files w' !! reference_path E e = Some content /\
    e' !! "last_changed" = e !! "last_changed" /\
    e' !! "last_pulled" = Some (VStr (clock E (ticks w))) /\
    ticks w' = S (ticks w).
Proof.
  intros ([lat Hlat] & [long Hlong] & [name Hname]) Hplain Hget Hst Hstored [img Himg].
  rewrite (process_entry_plain E w e lat long status content
             Hlat Hlong Hplain Hget Hst).
  cbv zeta. rewrite Hname, Hstored.
  destruct (imread_after_fetch E w
              (set_ticks (S (ticks w))
                 (set_files (fun fs => <[candidate_path E e := content]> fs)
                    (set_sent (sent w ++ [request_url w e]) w)))
              e lat long content Hlat Hlong Hplain eq_refl) as [Hold Hnew].
  rewrite Hstored in Hold. change (Some content ≫= imread_decode E)
    with (imread_decode E content) in Hold. rewrite Himg in Hold, Hnew.
  rewrite (images_are_a_match_same E _ _ _ img Hold Hnew).
  cbn [snd]. do 3 eexists. split; [reflexivity|].
  rewrite update_row_lookup_status.
  cbn [files set_ticks set_files set_sent ticks].
  destruct (plain_coordinates_paths E e Hplain) as [Hdistinct _].
  repeat split; by simplify_map_eq.
Qed.

Lemma identical_image_is_unchanged_witness :
  exists w' e' row,
    process_entry (serves "grey-2x2")
      (fresh_world (stockholm_stored "grey-2x2") [stockholm], stockholm)
    = ((w', e'), inr row) /\
    row !! "Status" = Some (VStr "Unchanged") /\
    e' !! "last_changed" = None.
Proof.
  destruct (identical_image_is_unchanged (serves "grey-2x2")
              (fresh_world (stockholm_stored "grey-2x2") [stockholm])
              stockholm 200 "grey-2x2")
    as (w' & e' & row & Hrun & Hstatus & _ & Hchanged & _).
  - repeat split; eexists; reflexivity.
  - split; reflexivity.
  - reflexivity.
  - lia.
  - reflexivity.
  - eexists. reflexivity.
  - exists w', e', row. repeat split; assumption.
Defined.

(** ** The comparator, either way round *)

Lemma array_equal_zeros_ext (d d' : ndarray) :
  nd_shape d = nd_shape d' ->
  (forall i j k, nd_item d i j k = nd_item d' i j k) ->
  np_array_equal d (np_zeros (nd_shape d)) =
  np_array_equal d' (np_zeros (nd_shape d')).
Proof.
  intros Hshape Hitem.
  destruct (np_array_equal d' (np_zeros (nd_shape d'))) eqn:H'.
  - apply array_equal_zeros_true. intros i j k Hi Hj Hk. rewrite Hitem.
    pose proof (proj1 (array_equal_zeros_true d') H') as Hzero.
    unfold nd_rows, nd_cols, nd_chans in *. rewrite Hshape in *. auto.
  - apply array_equal_zeros_false.
    destruct (proj1 (array_equal_zeros_false d') H')
      as (i & j & k & Hi & Hj & Hk & H).
    exists i, j, k. unfold nd_rows, nd_cols, nd_chans in *.
    rewrite Hshape, Hitem. auto.
Qed.

(** X12: the comparison does not depend on which image is given first,
    whenever one of the two does not decode or both decode into one
    shape. *)
Theorem images_are_a_match_symmetric E (w : world) (old new : string) :
  (snd (imread E old w) = inr None \/ snd (imread E new w) = inr None \/
   exists img1 img2,
     snd (imread E old w) = inr (Some img1) /\
     snd (imread E new w) = inr (Some img2) /\
     nd_shape img1 = nd_shape img2) ->
  images_are_a_match E old new w = images_are_a_match E new old w.
Proof.
  intros [H|[H|(img1 & img2 & H1 & H2 & Hshape)]].
  - rewrite !images_are_a_match_undecoded; auto.
  - rewrite !images_are_a_match_undecoded; auto.
  - rewrite (images_are_a_match_decoded E old new w img1 img2 H1 H2).
    rewrite (images_are_a_match_decoded E new old w img2 img1 H2 H1).
    rewrite (absdiff_same_shape E img1 img2 Hshape).
    rewrite (absdiff_same_shape E img2 img1 (eq_sym Hshape)).
    f_equal. f_equal. apply array_equal_zeros_ext; cbn [nd_shape nd_item].
    + exact Hshape.
    + intros i j k. f_equal. lia.
Qed.

Lemma images_are_a_match_symmetric_witness :
  images_are_a_match (serves "spot-2x2")
    "old_images/59_33_18_06.jpg" "new_images/59_33_18_06.jpg"
    (fresh_world (stockholm_both "grey-2x2" "spot-2x2") [stockholm]) =
  images_are_a_match (serves "spot-2x2")
    "new_images/59_33_18_06.jpg" "old_images/59_33_18_06.jpg"
    (fresh_world (stockholm_both "grey-2x2" "spot-2x2") [stockholm]).
Proof.
  apply (images_are_a_match_symmetric (serves "spot-2x2")).
  right. right. exists grey_2x2, spot_2x2. repeat split.
Defined.

(** ** The pass, request by request *)

Lemma request_url_key (w w' : world) (e : dict) :
  api_key w' = api_key w -> request_url w' e = request_url w e.
Proof. intros H. unfold request_url. now rewrite H. Qed.

Lemma update_loop_requests E (md : list dict) :
  forall (updates : list dict) (w : world),
  exists n, (n <= length md)%nat /\
    sent (fst (fst (update_loop E md updates w))) =
      sent w ++ map (request_url w) (take n md) /\
    (forall rows, snd (update_loop E md updates w) = inr rows ->
                  n = length md).
Proof.
  induction md as [|e md IH]; intros updates w; cbn [update_loop].
  - exists O. cbn. rewrite app_nil_r. auto.
  - destruct (process_entry E (w, e)) as [[w1 e1] [err|row]] eqn:Hturn.
    + cbn [fst snd].
      destruct (e !! "lat") as [lat|] eqn:Hlat.
      2:{ exists O. rewrite process_entry_eq, Hlat in Hturn. simplify_eq.
          cbn. rewrite app_nil_r. repeat split; [lia | intros ? [=]]. }
      destruct (e !! "long") as [long|] eqn:Hlong.
      2:{ exists O. rewrite process_entry_eq, Hlat, Hlong in Hturn. simplify_eq.
          cbn. rewrite app_nil_r. repeat split; [lia | intros ? [=]]. }
      exists 1%nat. pose proof (process_entry_request E w e lat long Hlat Hlong) as H.
      rewrite Hturn in H. cbn [fst] in H. cbn [length take map].
      rewrite take_0. repeat split; [lia | exact H | intros ? [=]].
    + pose proof (process_entry_stamps E w w1 e e1 row Hturn)
        as (_ & [lat Hlat] & [long Hlong] & _).
      pose proof (process_entry_request E w e lat long Hlat Hlong) as H.
      pose proof (process_entry_world E w e) as (_ & Hkey & _).
      rewrite Hturn in H, Hkey. cbn [fst] in H, Hkey.
      destruct (IH (updates ++ [row]) w1) as (n & Hn & Hsent & Hall).
      destruct (update_loop E md (updates ++ [row]) w1) as [[w2 md2] r].
      cbn [fst snd] in *. exists (S n). cbn [length take map].
      split; [lia|]. split.
      * rewrite Hsent, H, <- app_assoc. cbn [app]. f_equal. f_equal.
        apply map_ext. intros x. now apply request_url_key.
      * intros rows Hr. f_equal. eauto.
Qed.

(** X13: a pass sends at most one request per location, in the order of
    the registry and with no location skipped: the requests are those of
    the first [n] entries, and of all of them when the pass returns. *)
Theorem update_images_requests E (md : list dict) (w : world) :
  exists n, (n <= length md)%nat /\
    sent (fst (fst (update_images E (Some md) w))) =
      sent w ++ map (request_url w) (take n md) /\
    (forall rows, snd (update_images E (Some md) w) = inr rows ->
                  n = length md).
Proof.
  rewrite update_images_some.
  destruct (update_loop_requests E md [] w) as (n & Hn & Hsent & Hall).
  destruct (update_loop E md [] w) as [[w' md'] r]. cbn [fst snd] in *.
  eauto.
Qed.

Lemma update_images_requests_witness :
  exists n, (n <= 2)%nat /\
    sent (fst (fst (update_images (serves "grey-2x2") (Some [stockholm; oslo])
                      (fresh_world ∅ [stockholm; oslo])))) =
    map (request_url (fresh_world ∅ [stockholm; oslo])) (take n [stockholm; oslo]) /\
    n = 2%nat.
Proof.
  destruct (update_images_requests (serves "grey-2x2") [stockholm; oslo]
              (fresh_world ∅ [stockholm; oslo])) as (n & Hn & Hsent & Hall).
  exists n. split; [exact Hn|]. split; [exact Hsent|].
  eapply Hall. vm_compute. reflexivity.
Defined.

(** ** Entries with a key missing *)

(** X14: an entry without [lat], or with [lat] and without [long], stops
    the pass with a [KeyError] before anything is done for it: after the
    pass over the entries before it, no request is sent, no file written
    and no stamp set; the entry and those after it are as they were, [main]
    raises the same error and the registry file is not saved. *)
Theorem missing_coordinate_stops_pass E (w w1 : world) (k key : string)
    (pre pre' post rows : list dict) (e : dict) :
  api_key w = Some k -> key_format_ok k = true ->
  registry w = Some (Some (pre ++ e :: post)) ->
  update_images E (Some pre) w = (w1, Some pre', inr rows) ->
  (e !! "lat" = None /\ key = "lat") \/
  (is_Some (e !! "lat") /\ e !! "long" = None /\ key = "long") ->
  update_images E (Some (pre ++ e :: post)) w =
    (w1, Some (pre' ++ e :: post), inl (KeyError key)) /\
  main E w = (w1, inl (KeyError key)) /\
  registry w1 = registry w.
Proof.
  intros Hkey Hok Hreg Hpre Hmissing.
  rewrite update_images_some in Hpre.
  destruct (update_loop E pre [] w) as [[w0 pre0] r0] eqn:Hloop.
  injection Hpre as -> -> ->.
  assert (Hturn : process_entry E (w1, e) = ((w1, e), inl (KeyError key))).
  { rewrite process_entry_eq.
    destruct Hmissing as [[-> ->]|([lat ->] & -> & ->)]; reflexivity. }
  assert (Hrun : update_images E (Some (pre ++ e :: post)) w =
                 (w1, Some (pre' ++ e :: post), inl (KeyError key))).
  { rewrite update_images_some, update_loop_app, Hloop.
    cbn [update_loop]. now rewrite Hturn. }
  split; [exact Hrun|]. split.
  - rewrite (main_eq E w k _ Hkey Hok Hreg), Hrun. reflexivity.
  - pose proof (update_loop_world E pre [] w) as (Hr & _).
    now rewrite Hloop in Hr.
Qed.

Lemma missing_coordinate_stops_pass_witness :
  main (serves "grey-2x2") (fresh_world ∅ [unplaced; stockholm]) =
    (fresh_world ∅ [unplaced; stockholm], inl (KeyError "lat")).
Proof.
  apply (missing_coordinate_stops_pass (serves "grey-2x2")
           (fresh_world ∅ [unplaced; stockholm])
           (fresh_world ∅ [unplaced; stockholm])
           sample_key "lat" [] [] [stockholm] [] unplaced);
    try reflexivity.
  left. split; reflexivity.
Defined.



(** ** Stamps *)

(** X16: after a pass that returns, every entry carries in [last_pulled]
    a reading of the clock taken during the pass, and an entry whose row
    says [New] or [Changed] carries in [last_changed] the very next
    reading. *)
Theorem stamps_are_consecutive E (md md' rows : list dict) (w w' : world)
    (i : nat) (e' row : dict) :
  update_images E (Some md) w = (w', Some md', inr rows) ->
  md' !! i = Some e' -> rows !! i = Some row ->
  exists n, (ticks w <= n)%nat /\
    e' !! "last_pulled" = Some (VStr (clock E n)) /\
    (row !! "Status" = Some (VStr "New") \/
     row !! "Status" = Some (VStr "Changed") ->
     e' !! "last_changed" = Some (VStr (clock E (S n)))).
Proof.
  rewrite update_images_some.
  destruct (update_loop E md [] w) as [[w2 md2] r] eqn:Hloop.
  intros [= -> -> ->] He' Hrow.
  apply update_loop_rows in Hloop as (rows' & -> & Hall). cbn [app] in Hrow.
  destruct (Forall3_lookup_m _ _ _ _ _ _ Hall He')
    as (e & row' & He & Hrow' & wa & wb & Hle & Hturn).
  assert (row' = row) as -> by congruence.
  apply process_entry_stamps in Hturn as (Hpulled & _ & _ & _ & _ & Hstatus).
  exists (ticks wa). split; [exact Hle|]. split; [exact Hpulled|].
  intros Hnew. destruct Hstatus as [[Hun _]|[_ Hset]]; [|exact Hset].
  destruct Hnew as [Hnew|Hnew]; rewrite Hnew in Hun; discriminate Hun.
Qed.

Lemma stamps_are_consecutive_witness :
  exists n, (0 <= n)%nat /\
    <["last_changed" := VStr "T1"]>
      (<["last_pulled" := VStr "T0"]> stockholm) !! "last_pulled"
    = Some (VStr (clock (serves "grey-2x2") n)).
Proof.
  destruct (stamps_are_consecutive (serves "grey-2x2")
              [stockholm]
              [<["last_changed" := VStr "T1"]>
                 (<["last_pulled" := VStr "T0"]> stockholm)]
              [update_row (VStr "Stockholm") (VStr "59.33") (VStr "18.06") "New"
                 "/home/user/old_images/59_33_18_06.jpg"
                 "/home/user/new_images/59_33_18_06.jpg"]
              (fresh_world ∅ [stockholm])
              (set_ticks 2
                 (set_files (fun _ => stockholm_both "grey-2x2" "grey-2x2")
                    (set_sent [request_url (fresh_world ∅ [stockholm]) stockholm]
                       (fresh_world ∅ [stockholm]))))
              0%nat
              (<["last_changed" := VStr "T1"]>
                 (<["last_pulled" := VStr "T0"]> stockholm))
              (update_row (VStr "Stockholm") (VStr "59.33") (VStr "18.06") "New"
                 "/home/user/old_images/59_33_18_06.jpg"
                 "/home/user/new_images/59_33_18_06.jpg"))
    as (n & Hn & Hpulled & _);
    [vm_compute; reflexivity | reflexivity | reflexivity |].
  exists n. split; assumption.
Defined.

(** ** The report of a run *)

Lemma startswith_append (p s t : string) :
  startswith p s = true -> startswith p (s +:+ t) = true.
Proof.
  revert s. induction p as [|a p IH]; intros s H; [reflexivity|].
  destruct s as [|b s]; [discriminate H|].
  change (String b s +:+ t) with (String b (s +:+ t)).
  cbn [startswith] in *. apply andb_true_iff in H as [-> H].
  cbn [andb]. now apply IH.
Qed.

(** With the current directory given from the root, a path made absolute
    stays as it is when made absolute again. *)
Lemma absolute_idempotent E (p : string) :
  startswith "/" (cwd E) = true -> absolute E (absolute E p) = absolute E p.
Proof.
  intros Hcwd. unfold absolute at 2. destruct (startswith "/" p) eqn:Hp.
  - unfold absolute. now rewrite Hp.
  - unfold absolute, path_join. rewrite Hp.
    destruct (ends_with_slash (cwd E));
      now rewrite (startswith_append _ _ _ Hcwd).
Qed.

(** Reading an image for the report, given as a path text or a path
    object that names a file that is there. *)
Lemma image_to_base64_file E (path : value) (p content : string) (w : world) :
  path = VStr p \/ path = VPath p ->
  files w !! absolute E p = Some content ->
  image_to_base64 E path w = (w, inr (b64encode E content)).
Proof.
  intros [->| ->] H; unfold image_to_base64, bind, open_rb_read, read_bytes;
    rewrite H; reflexivity.
Qed.

(** The first loop of [generate_html] on rows it can embed: each row gets
    two more keys and keeps the others. *)
Lemma embed_images_ready E (w : world) (rows : list dict) :
  Forall (report_ready E w) rows ->
  exists rows',
    embed_images E rows w = (w, inr rows') /\
    Forall2 (fun row row' =>
               forall k, k <> "old_image_base64" -> k <> "new_image_base64" ->
                         row' !! k = row !! k)
            rows rows'.
Proof.
  induction 1
    as [|row rows (old_image & new_image & Hold & Hnew & [c1 H1] & [c2 H2]) _ IH];
    cbn [embed_images].
  - exists []. split; [reflexivity | constructor].
  - destruct IH as (rows' & Hrows & Hall).
    assert (exists v, row !! "old_image" = Some v /\
                      (v = VStr old_image \/ v = VPath old_image))
      as (v1 & Hv1 & Hk1) by (destruct Hold; eauto).
    assert (exists v, row !! "new_image" = Some v /\
                      (v = VStr new_image \/ v = VPath new_image))
      as (v2 & Hv2 & Hk2) by (destruct Hnew; eauto).
    rewrite Hv1. unfold bind at 1.
    rewrite (image_to_base64_file E v1 old_image c1 w Hk1 H1).
    rewrite lookup_insert_ne by discriminate. rewrite Hv2.
    unfold bind at 1.
    rewrite (image_to_base64_file E v2 new_image c2 w Hk2 H2).
    unfold bind at 1. rewrite Hrows.
    eexists. split; [reflexivity|]. constructor; [|exact Hall].
    intros k Hk1' Hk2'. now rewrite !lookup_insert_ne by done.
Qed.



Lemma update_row_lookup_images name lat long verdict old_image new_image :
  update_row name lat long verdict old_image new_image !! "old_image"
  = Some (VPath old_image) /\
  update_row name lat long verdict old_image new_image !! "new_image"
  = Some (VPath new_image).
Proof. unfold update_row. by simplify_map_eq. Qed.

(** The row of a turn can be embedded in the world the turn leaves, and a
    turn removes no file. *)
Lemma process_entry_ready E (w w' : world) (e e' row : dict) :
  startswith "/" (cwd E) = true ->
  process_entry E (w, e) = ((w', e'), inr row) ->
  (report_ready E w' row /\ row !! "status" = None) /\
  (forall p, is_Some (files w !! p) -> is_Some (files w' !! p)).
Proof.
  intros Hcwd Hrun.
  destruct (process_entry_ok_fetch E w w' e e' row Hrun)
    as (lat & long & name & status & content
        & Hlat & Hlong & Hname & Hget & Hst & Hdir).
  rewrite (process_entry_fetched E w e lat long status content
             Hlat Hlong Hget Hst Hdir) in Hrun.
  cbv zeta in Hrun. rewrite Hname in Hrun.
  cbn [files set_ticks set_files set_sent] in Hrun.
  assert (Hready : forall verdict (w0 : world),
             is_Some (files w0 !! absolute E (path_join OLD_IMAGES (format_filename lat long))) ->
             is_Some (files w0 !! absolute E (path_join NEW_IMAGES (format_filename lat long))) ->
             report_ready E w0
               (update_row name lat long verdict
                  (absolute E (path_join OLD_IMAGES (format_filename lat long)))
                  (absolute E (path_join NEW_IMAGES (format_filename lat long)))) /\
             update_row name lat long verdict
               (absolute E (path_join OLD_IMAGES (format_filename lat long)))
               (absolute E (path_join NEW_IMAGES (format_filename lat long)))
             !! "status" = None).
  { intros verdict w0 Hold Hnew. split; [|apply update_row_status].
    destruct (update_row_lookup_images name lat long verdict
                (absolute E (path_join OLD_IMAGES (format_filename lat long)))
                (absolute E (path_join NEW_IMAGES (format_filename lat long))))
      as [H1 H2].
    do 2 eexists. split; [right; exact H1|]. split; [right; exact H2|].
    rewrite !absolute_idempotent by assumption. auto. }
  assert (Hsolve : forall (fs : gmap string string) (p q c : string),
             is_Some (fs !! p) -> is_Some (<[q := c]> fs !! p)).
  { intros fs p q c Hp. apply lookup_insert_is_Some'. now right. }
  assert (Hhere : forall (fs : gmap string string) (q c : string),
             is_Some (<[q := c]> fs !! q)).
  { intros fs q c. apply lookup_insert_is_Some'. now left. }
  destruct (<[_ := content]> (files w) !! _) as [stored|] eqn:Hold;
    [destruct (snd (images_are_a_match E _ _ _)) as [err|[|]]|];
    try destruct (dir_exists E (dirname (reference_path E e)));
    simplify_eq; (split; [apply Hready|]);
    cbn [files set_ticks set_files set_sent]; rewrite ?Hold; eauto.
Qed.

Lemma report_ready_mono E (w w' : world) (row : dict) :
  (forall p, is_Some (files w !! p) -> is_Some (files w' !! p)) ->
  report_ready E w row -> report_ready E w' row.
Proof.
  intros Hmono (o & n & Ho & Hn & Hfo & Hfn).
  exists o, n. auto.
Qed.

(** The rows of a pass that returns can all be embedded afterwards, and
    none has a [status] key. *)
Lemma update_loop_ready E (md : list dict) :
  startswith "/" (cwd E) = true ->
  forall (updates : list dict) (w w' : world) (md' rows : list dict),
  update_loop E md updates w = (w', md', inr rows) ->
  Forall (fun row => report_ready E w row /\ row !! "status" = None) updates ->
  Forall (fun row => report_ready E w' row /\ row !! "status" = None) rows.
Proof.
  intros Hcwd.
  induction md as [|e md IH]; intros updates w w' md' rows; cbn [update_loop].
  - intros [= <- <- <-]. auto.
  - destruct (process_entry E (w, e)) as [[w1 e1] [err|row]] eqn:Hturn;
      [intros [= ]|].
    destruct (update_loop E md (updates ++ [row]) w1) as [[w2 md2] r] eqn:Hloop.
    intros [= <- <- ->] Hupdates.
    destruct (process_entry_ready E w w1 e e1 row Hcwd Hturn) as [Hrow Hmono].
    eapply IH; [exact Hloop|].
    apply Forall_app. split; [|by constructor].
    eapply Forall_impl; [exact Hupdates|].
    intros x [Hx Hs]. split; [|exact Hs]. now apply (report_ready_mono E w).
Qed.

Lemma foldr_blank_length (rows rows' : list dict) :
  length rows = length rows' ->
  foldr (fun (_ : dict) html => html_blank +:+ html) "" rows =
  foldr (fun (_ : dict) html => html_blank +:+ html) "" rows'.
Proof.
  revert rows'. induction rows as [|r rows IH]; intros [|r' rows'] H;
    try discriminate H; [reflexivity|].
  cbn [foldr]. f_equal. apply IH. now injection H.
Qed.

(** X18: a run that gets through a registry with at least one location,
    started in a directory given from the root, ends without an exception;
    it saves the registry, prints the table of the rows, writes the report
    and hands it to the system.  Whatever the statuses of the rows, the
    report holds, between the head and the tail of the template, only the
    blank text of one turn of the loop per row: no image pair. *)
Theorem main_writes_blank_report E (w w1 : world) (k : string)
    (md : list dict) (md' : option (list dict)) (rows : list dict) :
  api_key w = Some k -> key_format_ok k = true ->
  registry w = Some (Some md) -> startswith "/" (cwd E) = true ->
  update_images E (Some md) w = (w1, md', inr rows) -> rows <> [] ->
  main E w =
    (set_console
       (console w ++ [PrintTable rows; OsSystem "image_comparison.html"])
       (set_files
          (fun fs =>
             <[absolute E "image_comparison.html" :=
               html_head
               +:+ foldr (fun _ html => html_blank +:+ html) "" rows
               +:+ html_tail]> fs)
          (set_registry (Some md') w1)),
     inr tt).
Proof.
  intros Hkey Hok Hreg Hcwd Hrun Hrows.
  rewrite (main_eq E w k _ Hkey Hok Hreg), Hrun.
  pose proof (update_images_world E (Some md) w) as (_ & _ & Hconsole).
  rewrite Hrun in Hconsole. cbn [fst] in Hconsole.
  rewrite update_images_some in Hrun.
  destruct (update_loop E md [] w) as [[w2 md2] r] eqn:Hloop.
  injection Hrun as -> <- ->.
  pose proof (update_loop_ready E md Hcwd [] w w1 md2 rows Hloop (Forall_nil_2 _))
    as Hready.
  destruct rows as [|row rows]; [congruence|].
  unfold save_metadata. unfold bind, modify.
  cbn beta iota. rewrite generate_html_eq.
  match goal with
  | |- context [embed_images E ?r ?w0] =>
      assert (Hready' : Forall (report_ready E w0) r)
        by (eapply Forall_impl; [exact Hready|]; intros x [Hx _]; exact Hx);
      destruct (embed_images_ready E w0 r Hready') as (rows' & Hembed & Hall)
  end.
  assert (Hrender : render rows' =
                    html_head
                    +:+ foldr (fun _ html => html_blank +:+ html) "" (row :: rows)
                    +:+ html_tail).
  { rewrite render_update_rows.
    - f_equal. f_equal. apply foldr_blank_length.
      symmetry. eapply Forall2_length, Hall.
    - apply Forall_forall. intros r' Hr'.
      apply list_elem_of_lookup in Hr' as [i Hi].
      destruct (Forall2_lookup_r _ _ _ _ _ Hall Hi) as (r0 & Hr0 & Hkeys).
      rewrite Hkeys by discriminate.
      rewrite Forall_forall in Hready.
      apply (Hready r0). apply list_elem_of_lookup. eauto. }
  rewrite Hembed. cbn beta iota. rewrite Hrender.
  unfold set_console, set_files, set_registry. cbn.
  rewrite Hconsole, <- app_assoc. reflexivity.
Qed.

Lemma main_writes_blank_report_witness :
  exists final,
    main (serves "spot-2x2")
      (fresh_world (stockholm_stored "grey-2x2") [stockholm]) = (final, inr tt) /\
    files final !! "/home/user/image_comparison.html" =
      Some (html_head +:+ html_blank +:+ html_tail).
Proof.
  eexists. split.
  - apply (main_writes_blank_report (serves "spot-2x2")
             (fresh_world (stockholm_stored "grey-2x2") [stockholm])
             (set_ticks 2
                (set_files (fun _ => stockholm_both "spot-2x2" "spot-2x2")
                   (set_sent
                      [request_url (fresh_world ∅ [stockholm]) stockholm]
                      (fresh_world ∅ [stockholm]))))
             sample_key [stockholm]
             (Some [<["last_changed" := VStr "T1"]>
                      (<["last_pulled" := VStr "T0"]> stockholm)])
             [update_row (VStr "Stockholm") (VStr "59.33") (VStr "18.06")
                "Changed" "/home/user/old_images/59_33_18_06.jpg"
                "/home/user/new_images/59_33_18_06.jpg"]);
      [reflexivity | reflexivity | reflexivity | reflexivity
      | vm_compute; reflexivity | discriminate].
  - vm_compute. reflexivity.
Defined.

(** ** The files a pass touches *)

(** A turn, however it ends, writes no file but the stored and the
    fetched image of its entry, and removes none. *)
Lemma process_entry_files E (w : world) (e : dict) :
  (forall p, p <> reference_path E e -> p <> candidate_path E e ->
             files (fst (fst (process_entry E (w, e)))) !! p = files w !! p) /\
  (forall p, is_Some (files w !! p) ->
             is_Some (files (fst (fst (process_entry E (w, e)))) !! p)).
Proof.
  rewrite process_entry_eq.
  destruct (e !! "lat") as [lat|] eqn:Hlat; [|cbn; auto].
  destruct (e !! "long") as [long|] eqn:Hlong; [|cbn; auto].
  destruct (reference_path_eq E e lat long Hlat Hlong) as [-> ->].
  rewrite download_image_eq. cbv zeta.
  split.
  - intros p Hp1 Hp2.
    repeat case_match; simplify_eq; cbn [fst snd files set_ticks set_files set_sent];
      rewrite ?lookup_insert_ne by done; done.
  - intros p Hp.
    repeat case_match; simplify_eq; cbn [fst snd files set_ticks set_files set_sent];
      rewrite ?lookup_insert_is_Some'; auto.
Qed.

Lemma update_loop_files E (md : list dict) :
  forall (updates : list dict) (w : world),
  (forall p, Forall (fun e => p <> reference_path E e /\ p <> candidate_path E e) md ->
             files (fst (fst (update_loop E md updates w))) !! p = files w !! p) /\
  (forall p, is_Some (files w !! p) ->
             is_Some (files (fst (fst (update_loop E md updates w))) !! p)).
Proof.
  induction md as [|e md IH]; intros updates w; cbn [update_loop].
  - cbn. auto.
  - pose proof (process_entry_files E w e) as [Hframe Hkeep].
    destruct (process_entry E (w, e)) as [[w1 e1] [err|row]]; cbn [fst snd] in *.
    + split; [|exact Hkeep].
      intros p Hp. apply Forall_cons in Hp as [[H1 H2] _]. auto.
    + destruct (IH (updates ++ [row]) w1) as [IHframe IHkeep].
      destruct (update_loop E md (updates ++ [row]) w1) as [[w2 md2] r].
      cbn [fst snd] in *. split.
      * intros p Hp. apply Forall_cons in Hp as [[H1 H2] Hp].
        rewrite IHframe by exact Hp. auto.
      * intros p Hp. auto.
Qed.

(** X19: [update_images], however it ends, removes no file, writes no
    file other than the stored and the fetched images of the entries of
    the registry, and leaves the registry file, the key and the console as
    they were. *)
Theorem update_images_writes_only_images E (md : list dict) (w : world) :
  (forall p,
     Forall (fun e => p <> reference_path E e /\ p <> candidate_path E e) md ->
     files (fst (fst (update_images E (Some md) w))) !! p = files w !! p) /\
  (forall p, is_Some (files w !! p) ->
             is_Some (files (fst (fst (update_images E (Some md) w))) !! p)) /\
  registry (fst (fst (update_images E (Some md) w))) = registry w /\
  api_key (fst (fst (update_images E (Some md) w))) = api_key w /\
  console (fst (fst (update_images E (Some md) w))) = console w.
Proof.
  rewrite update_images_some.
  pose proof (update_loop_files E md [] w) as [Hframe Hkeep].
  pose proof (update_loop_world E md [] w) as Hworld.
  destruct (update_loop E md [] w) as [[w' md'] r]. cbn [fst snd] in *.
  auto.
Qed.

Lemma update_images_writes_only_images_witness :
  files (fst (fst (update_images (serves "spot-2x2") (Some [oslo])
                     (fresh_world (stockholm_stored "grey-2x2") [oslo]))))
  !! "/home/user/old_images/59_33_18_06.jpg" = Some "grey-2x2".
Proof.
  rewrite (proj1 (update_images_writes_only_images (serves "spot-2x2") [oslo]
                    (fresh_world (stockholm_stored "grey-2x2") [oslo]))).
  - reflexivity.
  - repeat constructor; discriminate.
Defined.

(** ** New locations *)

(** After a turn that yields a row, the stored image of the entry is
    there. *)
Lemma process_entry_reference E (w w' : world) (e e' row : dict) :
  process_entry E (w, e) = ((w', e'), inr row) ->
  is_Some (files w' !! reference_path E e) /\
  (row !! "Status" = Some (VStr "New") -> files w !! reference_path E e = None).
Proof.
  intros Hrun.
  destruct (process_entry_ok_fetch E w w' e e' row Hrun)
    as (lat & long & name & status & content
        & Hlat & Hlong & Hname & Hget & Hst & Hdir).
  rewrite (process_entry_fetched E w e lat long status content
             Hlat Hlong Hget Hst Hdir) in Hrun.
  cbv zeta in Hrun. rewrite Hname in Hrun.
  cbn [files set_ticks set_files set_sent] in Hrun.
  destruct (reference_path_eq E e lat long Hlat Hlong) as [Hr _].
  rewrite <- Hr in Hrun.
  destruct (<[_ := content]> (files w) !! reference_path E e)
    as [stored|] eqn:Hold;
    [destruct (snd (images_are_a_match E _ _ _)) as [err|[|]]|];
    try destruct (dir_exists E (dirname (reference_path E e)));
    simplify_eq; rewrite update_row_lookup_status;
    cbn [files set_ticks set_files set_sent];
    (split; [rewrite ?Hold; rewrite ?lookup_insert_is_Some'; eauto|]);
    try (intros [=]).
  apply lookup_insert_None in Hold as [Hold _]. exact Hold.
Qed.

Lemma update_loop_new E (md : list dict) :
  forall (updates : list dict) (w w' : world) (md' rows : list dict),
  update_loop E md updates w = (w', md', inr rows) ->
  exists rows', rows = updates ++ rows' /\
    forall j e row, md !! j = Some e -> rows' !! j = Some row ->
      row !! "Status" = Some (VStr "New") ->
      files w !! reference_path E e = None /\
      forall i e0, (i < j)%nat -> md !! i = Some e0 ->
                   reference_path E e0 <> reference_path E e.
Proof.
  induction md as [|e md IH]; intros updates w w' md' rows; cbn [update_loop].
  - intros [= <- <- <-]. exists []. split; [now rewrite app_nil_r|].
    intros j e row Hj. discriminate Hj.
  - destruct (process_entry E (w, e)) as [[w1 e1] [err|row]] eqn:Hturn;
      [intros [= ]|].
    destruct (update_loop E md (updates ++ [row]) w1) as [[w2 md2] r] eqn:Hloop.
    intros [= <- <- ->].
    destruct (IH _ _ _ _ _ Hloop) as (rows' & -> & Hnew).
    exists (row :: rows'). split; [now rewrite <- app_assoc|].
    destruct (process_entry_reference E w w1 e e1 row Hturn) as [Hthere Hfresh].
    pose proof (process_entry_files E w e) as [_ Hkeep].
    rewrite Hturn in Hkeep. cbn [fst] in Hkeep.
    intros [|j] x r Hx Hr Hstatus; cbn in Hx, Hr; simplify_eq.
    + split; [auto|]. intros i e0 Hi. lia.
    + destruct (Hnew j x r Hx Hr Hstatus) as [Hnone Hearlier].
      split.
      * destruct (files w !! reference_path E x) as [c|] eqn:Hc; [|reflexivity].
        destruct (Hkeep (reference_path E x)) as [c' Hc']; [eauto|]. congruence.
      * intros [|i] e0 Hi He0; cbn in He0; simplify_eq.
        -- intros Heq. rewrite Heq in Hthere. rewrite Hnone in Hthere.
           destruct Hthere as [? [=]].
        -- apply (Hearlier i e0); [lia | exact He0].
Qed.

(** X20: in a pass that returns, a row says [New] only for a location
    that had no stored image before the pass and whose stored image is not
    that of a location earlier in the registry: of several entries with the
    same coordinates, only the first can be [New]. *)
Theorem new_only_once E (md md' rows : list dict) (w w' : world)
    (j : nat) (e row : dict) :
  update_images E (Some md) w = (w', Some md', inr rows) ->
  md !! j = Some e -> rows !! j = Some row ->
  row !! "Status" = Some (VStr "New") ->
  files w !! reference_path E e = None /\
  forall i e0, (i < j)%nat -> md !! i = Some e0 ->
               reference_path E e0 <> reference_path E e.
Proof.
  rewrite update_images_some.
  destruct (update_loop E md [] w) as [[w2 md2] r] eqn:Hloop.
  intros [= -> -> ->] He Hrow Hstatus.
  apply update_loop_new in Hloop as (rows' & -> & Hnew). cbn [app] in Hrow.
  eapply Hnew; eassumption.
Qed.

Lemma new_only_once_witness :
  files (fresh_world ∅ JSON_TEMPLATE)
  !! reference_path (serves "grey-2x2")
       (<["lat" := VStr "0"]> (<["long" := VStr "0"]> (<["zoom" := VInt 10]> (
          <["name" := VStr "Location 1"]> ∅)))) = None.
Proof.
  apply (new_only_once (serves "grey-2x2") JSON_TEMPLATE
           (snd (fst (update_loop (serves "grey-2x2") JSON_TEMPLATE []
                        (fresh_world ∅ JSON_TEMPLATE))))
           [update_row (VStr "Location 1") (VStr "0") (VStr "0") "New"
              "/home/user/old_images/0_0.jpg" "/home/user/new_images/0_0.jpg";
            update_row (VStr "Location 2") (VStr "0") (VStr "0") "Unchanged"
              "/home/user/old_images/0_0.jpg" "/home/user/new_images/0_0.jpg"]
           (fresh_world ∅ JSON_TEMPLATE)
           (fst (fst (update_loop (serves "grey-2x2") JSON_TEMPLATE []
                        (fresh_world ∅ JSON_TEMPLATE))))
           0%nat _
           (update_row (VStr "Location 1") (VStr "0") (VStr "0") "New"
              "/home/user/old_images/0_0.jpg" "/home/user/new_images/0_0.jpg"));
    [vm_compute; reflexivity | reflexivity | reflexivity | reflexivity].
Defined.
